(** * Build Service API (backend/server.js)

    A shallow embedding of the five Express route handlers of
    [backend/server.js] (signup, login, save, history, load) over an
    in-memory model of the two Mongoose collections they use, followed by
    the properties of the handlers.

    The handlers are written in a small state-and-exception monad: the
    state is the document store together with the sequence of observable
    events (store calls and console lines), an exception is what a rejected
    promise raises inside the handler's [try] block.

    Three things that the libraries compute are not computed here but
    taken as given, so that what is proved holds whatever they are: bcrypt's
    hash and check, the string JavaScript prints for a number, and
    Mongoose's cast of a submitted [bricks] value to the schema. *)

From Stdlib Require Import ZArith NArith List String Ascii Bool Lia.
From Stdlib Require Import Sorting.Sorted Sorting.Permutation.
From Stdlib Require Import Numbers.DecimalString Floats.
Import ListNotations.
Open Scope string_scope.
Open Scope Z_scope.

(** ** JavaScript values of a request

    The fields a handler destructures from [req.body] hold JSON scalars; a
    field that the body does not have reads as [undefined].  Numbers are
    the doubles of JavaScript.  Array and object values in the place of a
    credential are not modelled. *)

Inductive JsVal : Type :=
| JUndefined
| JNull
| JBool (b : bool)
| JNum (x : float)
| JStr (s : string).

(** ToBoolean: [undefined], [null], [false], the zeros, NaN and the empty
    string are falsy. *)
Definition truthy (v : JsVal) : bool :=
  match v with
  | JUndefined | JNull => false
  | JBool b => b
  | JNum x => negb (is_zero x || is_nan x)
  | JStr s => negb (String.eqb s "")
  end.

(** [!v] *)
Definition js_not (v : JsVal) : bool := negb (truthy v).

(** [v.length]: the number of characters of a string, [undefined] ([None])
    on a number or a boolean.  (On [undefined] and [null] the property
    access would throw; the handlers only reach it behind a [!v] guard.) *)
Definition js_length (v : JsVal) : option Z :=
  match v with
  | JStr s => Some (Z.of_nat (String.length s))
  | _ => None
  end.

(** [l < k] for a property read [l]: [undefined < k] is [false], since
    [undefined] converts to NaN. *)
Definition js_lt (l : option Z) (k : Z) : bool :=
  match l with
  | Some n => n <? k
  | None => false
  end.

(** ** JSON values

    The value of [bricks] in a request body, and the value of [bricks] in
    a stored Build: any JSON value, its numbers the doubles of JavaScript.
    An object has each of its keys once. *)

#[warnings="-register-all"]
Inductive Json : Type :=
| JsonNull
| JsonBool (b : bool)
| JsonNumber (x : float)
| JsonString (s : string)
| JsonArray (items : list Json)
| JsonObject (fields : list (string * Json)).

(** [v[name]] on an object; [None] when [v] has no such field. *)
Definition json_field (name : string) (v : Json) : option Json :=
  match v with
  | JsonObject fields =>
      option_map snd (find (fun kv => String.eqb (fst kv) name) fields)
  | _ => None
  end.

(** ** Identifiers

    An ObjectId is a 96-bit number, written as 24 hexadecimal digits. *)

Definition ObjectId : Type := N.

Definition hex_digit (c : ascii) : option N :=
  let n := N_of_ascii c in
  if ((48 <=? n) && (n <=? 57))%N then Some (n - 48)%N
  else if ((97 <=? n) && (n <=? 102))%N then Some (n - 87)%N
  else if ((65 <=? n) && (n <=? 70))%N then Some (n - 55)%N
  else None.

Fixpoint parse_hex (s : string) (acc : N) : option N :=
  match s with
  | EmptyString => Some acc
  | String c s' =>
      match hex_digit c with
      | Some d => parse_hex s' (16 * acc + d)%N
      | None => None
      end
  end.

(** Mongoose's cast of a request value to the schema type ObjectId: a
    string of 24 hexadecimal digits is the identifier it writes; a number,
    a boolean or any other string does not cast. *)
Definition castObjectId (v : JsVal) : option ObjectId :=
  match v with
  | JStr s => if Nat.eqb (String.length s) 24 then parse_hex s 0%N else None
  | _ => None
  end.

(** ** Data model (UserSchema, BuildSchema) *)

Record User : Type := mkUser {
  user_id : ObjectId;            (* _id *)
  user_username : string;        (* username: required, unique *)
  user_password : string;        (* password: required (the bcrypt hash) *)
  user_createdAt : Z             (* createdAt: default Date.now *)
}.

(** The seven paths of a brick subdocument and what a brick holds at
    each: a value, or nothing when the brick has no such field. *)
Module Brick.
Record t : Type := mk {
  x : option Json; y : option Json; z : option Json;
  width : option Json; depth : option Json;
  color : option Json;             (* hex colour *)
  rotation : option Json
}.

Definition paths : list string :=
  ["x"; "y"; "z"; "width"; "depth"; "color"; "rotation"].

End Brick.

Record Build : Type := mkBuild {
  build_id : ObjectId;           (* _id *)
  build_userId : ObjectId;       (* userId: ObjectId, ref 'User', required *)
  build_name : option string;    (* name: optional *)
  build_createdAt : Z;           (* createdAt: default Date.now *)
  build_bricks : Json            (* bricks: array of brick subdocuments *)
}.

(** The two collections, each in insertion order. *)
Record Store : Type := mkStore {
  users : list User;
  builds : list Build
}.

Definition empty_store : Store := {| users := []; builds := [] |}.

(** ** Effects *)

(** What a rejected promise carries into the [catch] block.  Of the
    message of an error only this much is kept: its kind, and the paths of
    the schema it names.  The paths are the paths as the schema declares
    them: a cast that fails inside [bricks] is reported under [bricks]. *)
Inductive Error : Type :=
| ValidationError (paths : list string)
                                    (* save: the paths without a required value or with a failed cast *)
| CastError (path : string)         (* a query value that does not cast to the type of [path] *)
| DuplicateKey (index : string)     (* a unique index already holds the key *)
| BcryptError.                      (* bcrypt given something that is not a string *)

Inductive StoreCall : Type :=
| UserFindOne | UserSave | BuildSave | BuildFind | BuildFindById.

Inductive Event : Type :=
| Called (c : StoreCall)
| ConsoleLog (line : string)
| ConsoleError (e : Error).

Record World : Type := mkWorld {
  db : Store;
  events : list Event
}.

Inductive Outcome (A : Type) : Type :=
| Return (a : A)
| Throw (e : Error).
Arguments Return {A} a.
Arguments Throw {A} e.

Definition M (A : Type) : Type := World -> Outcome A * World.

Definition ret {A} (a : A) : M A := fun w => (Return a, w).

Definition throw {A} (e : Error) : M A := fun w => (Throw e, w).

Definition bind {A B} (m : M A) (k : A -> M B) : M B :=
  fun w =>
    match m w with
    | (Return a, w') => k a w'
    | (Throw e, w') => (Throw e, w')
    end.

(** [try { m } catch (err) { h err }] *)
Definition try_catch {A} (m : M A) (h : Error -> M A) : M A :=
  fun w =>
    match m w with
    | (Return a, w') => (Return a, w')
    | (Throw e, w') => h e w'
    end.

Declare Scope handler_scope.
Delimit Scope handler_scope with handler.
Notation "x <- m ;; k" := (bind m (fun x => k))
  (at level 61, m at next level, right associativity) : handler_scope.
Notation "m ;; k" := (bind m (fun _ => k))
  (at level 61, right associativity) : handler_scope.
Open Scope handler_scope.

Definition emit (e : Event) : M unit :=
  fun w => (Return tt, {| db := db w; events := events w ++ [e] |}).

Definition get_store : M Store := fun w => (Return (db w), w).

Definition put_store (s : Store) : M unit :=
  fun w => (Return tt, {| db := s; events := events w |}).

Definition console_log (line : string) : M unit := emit (ConsoleLog line).
Definition console_error (e : Error) : M unit := emit (ConsoleError e).

(** What the process supplies to one request: the clock ([Date.now]), the
    identifier a [new] document receives, and the salt bcrypt draws. *)
Record Env : Type := mkEnv {
  now : Z;
  new_oid : ObjectId;
  salt : string
}.

(** ** The request and the response *)

(** [req.body], as the handlers destructure it.  [bricks] is whatever
    JSON value the body has there. *)
Record ReqBody : Type := mkBody {
  body_username : JsVal;
  body_password : JsVal;
  body_userId : JsVal;
  body_bricks : option Json             (* [None]: the body has no [bricks] *)
}.

(** The payloads given to [res.json], by their fields:
    [{ success, message }], [{ success, userId, username, message }],
    [{ success, id }], [{ error }], an array of Builds, and a Build. *)
Inductive Payload : Type :=
| Message (success : bool) (message : string)
| LoggedIn (success : bool) (userId : ObjectId) (username : string) (message : string)
| SavedId (success : bool) (id : ObjectId)
| ErrorMessage (error : Error)
| BuildList (docs : list Build)
| BuildDocument (doc : Build).

Record Response : Type := mkResponse {
  status : nat;
  payload : Payload
}.

(** [res.status(code).json(p)] and [res.json(p)] *)
Definition res_status_json (code : nat) (p : Payload) : M Response :=
  ret {| status := code; payload := p |}.
Definition res_json (p : Payload) : M Response := res_status_json 200 p.

(** The [success] field of a payload, when it has one. *)
Definition success_flag (p : Payload) : option bool :=
  match p with
  | Message success _ => Some success
  | LoggedIn success _ _ _ | SavedId success _ => Some success
  | ErrorMessage _ | BuildList _ | BuildDocument _ => None
  end.

(** ** What JavaScript and Mongoose compute *)

Section Service.

(** The string JavaScript prints for a number ([Number.prototype.toString]). *)
Variable Number_toString : float -> string.

(** Mongoose's cast of a submitted [bricks] value to the array of brick
    subdocuments of BuildSchema, for one request: the value it stores,
    or nothing when an element or a field does not cast. *)
Variable castBricks : Env -> Json -> option Json.

(** Mongoose's cast to the schema type String: a string is itself, a
    number and a boolean are printed, [undefined] and [null] stay without
    a value ([None]). *)
Definition castString (v : JsVal) : option string :=
  match v with
  | JStr s => Some s
  | JNum x => Some (Number_toString x)
  | JBool true => Some "true"
  | JBool false => Some "false"
  | JUndefined | JNull => None
  end.

(** String conversion inside a template literal. *)
Definition js_to_string (v : JsVal) : string :=
  match v with
  | JUndefined => "undefined"
  | JNull => "null"
  | JBool true => "true"
  | JBool false => "false"
  | JNum x => Number_toString x
  | JStr s => s
  end.

(** ** The User model *)

(** [User.findOne({ username })]: the first user whose [username] is the
    cast value.  (Every stored user has a username, so a filter without a
    value finds none.) *)
Definition User_findOne (username : JsVal) : M (option User) :=
  emit (Called UserFindOne) ;;
  s <- get_store ;;
  match castString username with
  | Some name => ret (find (fun u => String.eqb (user_username u) name) (users s))
  | None => ret None
  end.

(** A document made by [new User({...})], not yet saved. *)
Record UserDoc : Type := mkUserDoc {
  ud_id : ObjectId;
  ud_username : option string;
  ud_password : string;
  ud_createdAt : Z
}.

Definition new_User (env : Env) (username : JsVal) (password : string) : UserDoc :=
  {| ud_id := new_oid env;
     ud_username := castString username;
     ud_password := password;
     ud_createdAt := now env |}.

(** The [required] paths of UserSchema that a document leaves without a
    value (for a string, the empty string is no value). *)
Definition User_missing (d : UserDoc) : list string :=
  match ud_username d with
  | Some name => if String.eqb name "" then ["username"] else []
  | None => ["username"]
  end ++
  (if String.eqb (ud_password d) "" then ["password"] else []).

(** [doc.save()]: the schema's [required] validators, then one insert that
    the unique indexes on [_id] and [username] may refuse.  A refused save
    writes nothing. *)
Definition User_save (d : UserDoc) : M User :=
  emit (Called UserSave) ;;
  match User_missing d, ud_username d with
  | [], Some name =>
      s <- get_store ;;
      if existsb (fun u => N.eqb (user_id u) (ud_id d)) (users s)
      then throw (DuplicateKey "_id_")
      else if existsb (fun u => String.eqb (user_username u) name) (users s)
      then throw (DuplicateKey "username_1")
      else
        let u := {| user_id := ud_id d; user_username := name;
                    user_password := ud_password d;
                    user_createdAt := ud_createdAt d |} in
        put_store {| users := users s ++ [u]; builds := builds s |} ;;
        ret u
  | _, _ => throw (ValidationError (User_missing d))
  end.

(** ** The Build model *)

Record BuildDoc : Type := mkBuildDoc {
  bd_id : ObjectId;
  bd_userId : option ObjectId;     (* [None]: the value given did not cast *)
  bd_createdAt : Z;
  bd_bricks : option Json          (* [None]: the value given did not cast *)
}.

(** The [bricks] of a new document: the cast of the value given, and the
    empty array, the default of an array path, when none is given. *)
Definition cast_bricks (env : Env) (bricks : option Json) : option Json :=
  match bricks with
  | Some raw => castBricks env raw
  | None => Some (JsonArray [])
  end.

(** [new Build({ userId, bricks })]: [userId] is cast to an ObjectId,
    [bricks] to the array of subdocuments, [createdAt] defaults to the
    clock.  A cast that fails is kept with the document and reported when
    the document is saved. *)
Definition new_Build (env : Env) (userId : JsVal) (bricks : option Json) : BuildDoc :=
  {| bd_id := new_oid env;
     bd_userId := castObjectId userId;
     bd_createdAt := now env;
     bd_bricks := cast_bricks env bricks |}.

(** The paths of BuildSchema that fail validation: [userId] without an
    ObjectId, [bricks] with a failed cast. *)
Definition Build_invalid (d : BuildDoc) : list string :=
  match bd_userId d with Some _ => [] | None => ["userId"] end ++
  match bd_bricks d with Some _ => [] | None => ["bricks"] end.

(** [doc.save()]: validation, then one insert that the unique index on
    [_id] may refuse.  A refused save writes nothing. *)
Definition Build_save (d : BuildDoc) : M Build :=
  emit (Called BuildSave) ;;
  match bd_userId d, bd_bricks d with
  | Some uid, Some bricks =>
      s <- get_store ;;
      if existsb (fun b => N.eqb (build_id b) (bd_id d)) (builds s)
      then throw (DuplicateKey "_id_")
      else
        let b := {| build_id := bd_id d; build_userId := uid; build_name := None;
                    build_createdAt := bd_createdAt d;
                    build_bricks := bricks |} in
        put_store {| users := users s; builds := builds s ++ [b] |} ;;
        ret b
  | _, _ => throw (ValidationError (Build_invalid d))
  end.

(** A query under construction: [Build.find({ userId })], then [.sort] and
    [.limit]; awaiting it runs it as one call. *)
Record Query : Type := mkQuery {
  q_userId : JsVal;
  q_sort : option Z;       (* direction of the sort on createdAt *)
  q_limit : option nat
}.

Definition Build_find (userId : JsVal) : Query :=
  {| q_userId := userId; q_sort := None; q_limit := None |}.

Definition sort_createdAt (dir : Z) (q : Query) : Query :=
  {| q_userId := q_userId q; q_sort := Some dir; q_limit := q_limit q |}.

Definition limit (n : nat) (q : Query) : Query :=
  {| q_userId := q_userId q; q_sort := q_sort q; q_limit := Some n |}.

(** [a] may stand before [b] in the direction [dir] (-1: newest first). *)
Definition in_order (dir : Z) (a b : Build) : bool :=
  if dir <? 0 then build_createdAt b <=? build_createdAt a
  else build_createdAt a <=? build_createdAt b.

Fixpoint insert_build (dir : Z) (a : Build) (l : list Build) : list Build :=
  match l with
  | [] => [a]
  | b :: l' => if in_order dir a b then a :: b :: l' else b :: insert_build dir a l'
  end.

Fixpoint sort_builds (dir : Z) (l : list Build) : list Build :=
  match l with
  | [] => []
  | a :: l' => insert_build dir a (sort_builds dir l')
  end.

Definition owned_by (uid : ObjectId) (b : Build) : bool :=
  N.eqb (build_userId b) uid.

Definition exec (q : Query) : M (list Build) :=
  emit (Called BuildFind) ;;
  match castObjectId (q_userId q) with
  | None => throw (CastError "userId")
  | Some uid =>
      s <- get_store ;;
      let found := filter (owned_by uid) (builds s) in
      let sorted := match q_sort q with
                    | Some dir => sort_builds dir found
                    | None => found
                    end in
      ret (match q_limit q with
           | Some n => firstn n sorted
           | None => sorted
           end)
  end.

(** [Build.findById(id)] *)
Definition Build_findById (id : JsVal) : M (option Build) :=
  emit (Called BuildFindById) ;;
  match castObjectId id with
  | None => throw (CastError "_id")
  | Some oid =>
      s <- get_store ;;
      ret (find (fun b => N.eqb (build_id b) oid) (builds s))
  end.

(** ** The route handlers *)

Section Handlers.

(** bcrypt, as the two functions of it the handlers call: the hash of a
    password for a number of rounds and a drawn salt, and the check of a
    password against a stored hash. *)
Variable hashpw : string -> nat -> string -> string.
Variable checkpw : string -> string -> bool.

(** [bcrypt.hash(data, rounds)] *)
Definition bcrypt_hash (env : Env) (data : JsVal) (rounds : nat) : M string :=
  match data with
  | JStr s => ret (hashpw s rounds (salt env))
  | _ => throw BcryptError
  end.

(** [bcrypt.compare(data, encrypted)] *)
Definition bcrypt_compare (data : JsVal) (encrypted : string) : M bool :=
  match data with
  | JStr s => ret (checkpw s encrypted)
  | _ => throw BcryptError
  end.

(** POST /api/signup *)
Definition api_signup (env : Env) (body : ReqBody) : M Response :=
  try_catch
    (let username := body_username body in
     let password := body_password body in
     if js_not username || js_not password then
       res_status_json 400 (Message false "Username and password are required")
     else if js_lt (js_length username) 3 then
       res_status_json 400 (Message false "Username must be at least 3 characters")
     else if js_lt (js_length password) 6 then
       res_status_json 400 (Message false "Password must be at least 6 characters")
     else
       existingUser <- User_findOne username ;;
       match existingUser with
       | Some _ =>
           res_status_json 400 (Message false "Username already exists")
       | None =>
           hashedPassword <- bcrypt_hash env password 10 ;;
           let newUser := new_User env username hashedPassword in
           User_save newUser ;;
           console_log ("New user created: " ++ js_to_string username) ;;
           res_json (Message true "Account created successfully")
       end)
    (fun err =>
       console_error err ;;
       res_status_json 500 (Message false "Server error")).

(** POST /api/login *)
Definition api_login (body : ReqBody) : M Response :=
  try_catch
    (let username := body_username body in
     let password := body_password body in
     if js_not username || js_not password then
       res_status_json 400 (Message false "Username and password are required")
     else
       found <- User_findOne username ;;
       match found with
       | None =>
           res_status_json 401 (Message false "Invalid username or password")
       | Some user =>
           isPasswordValid <- bcrypt_compare password (user_password user) ;;
           if negb isPasswordValid then
             res_status_json 401 (Message false "Invalid username or password")
           else
             console_log ("User logged in: " ++ js_to_string username) ;;
             res_json (LoggedIn true (user_id user) (user_username user) "Login successful")
       end)
    (fun err =>
       console_error err ;;
       res_status_json 500 (Message false "Server error")).

(** POST /api/save *)
Definition api_save (env : Env) (body : ReqBody) : M Response :=
  try_catch
    (let bricks := body_bricks body in
     let userId := body_userId body in
     if js_not userId then
       res_status_json 401 (Message false "User not authenticated")
     else
       let newBuild := new_Build env userId bricks in
       saved <- Build_save newBuild ;;
       console_log "Build Saved!" ;;
       res_json (SavedId true (build_id saved)))
    (fun err => res_status_json 500 (ErrorMessage err)).

(** GET /api/history/:userId; [userId] is [req.params.userId]. *)
Definition api_history (userId : string) : M Response :=
  try_catch
    (if js_not (JStr userId) then
       res_status_json 401 (Message false "User not authenticated")
     else
       docs <- exec (limit 10 (sort_createdAt (-1) (Build_find (JStr userId)))) ;;
       res_json (BuildList docs))
    (fun err => res_status_json 500 (ErrorMessage err)).

(** GET /api/load/:id; [id] is [req.params.id]. *)
Definition api_load (id : string) : M Response :=
  try_catch
    (found <- Build_findById (JStr id) ;;
     match found with
     | None => res_status_json 404 (Message false "Build not found")
     | Some build => res_json (BuildDocument build)
     end)
    (fun err => res_status_json 500 (ErrorMessage err)).

(** The routes of the application, and the handler each request reaches. *)
Inductive Request : Type :=
| PostSignup (env : Env) (body : ReqBody)
| PostLogin (body : ReqBody)
| PostSave (env : Env) (body : ReqBody)
| GetHistory (userId : string)
| GetLoad (id : string).

Definition route (r : Request) : M Response :=
  match r with
  | PostSignup env body => api_signup env body
  | PostLogin body => api_login body
  | PostSave env body => api_save env body
  | GetHistory userId => api_history userId
  | GetLoad id => api_load id
  end.

End Handlers.

(** One request against a store: the response, the store afterwards and
    the events of the request. *)
Definition serve (h : M Response) (s : Store) : Outcome Response * World :=
  h {| db := s; events := [] |}.

Definition store_calls (evs : list Event) : list StoreCall :=
  flat_map (fun e => match e with Called c => [c] | _ => [] end) evs.

(** The calls that write: the two [save]s. *)
Definition is_write (c : StoreCall) : bool :=
  match c with
  | UserSave | BuildSave => true
  | UserFindOne | BuildFind | BuildFindById => false
  end.

(** ** Notions used by the properties *)

(** The document a successful save stores. *)
Definition saved_build (env : Env) (uid : ObjectId) (bricks : Json) : Build :=
  {| build_id := new_oid env; build_userId := uid; build_name := None;
     build_createdAt := now env;
     build_bricks := bricks |}.






Definition id_in_use (oid : ObjectId) (s : Store) : bool :=
  existsb (fun b => N.eqb (build_id b) oid) (builds s).

(** [a] was created no earlier than [b]. *)
Definition newer_or_same (a b : Build) : Prop :=
  build_createdAt b <= build_createdAt a.

(** What one request may have done to the store: nothing, or the append of
    one document that the unique indexes of its collection admit. *)
Definition one_write_at_most (s s' : Store) : Prop :=
  s' = s
  \/ (exists u, s' = {| users := users s ++ [u]; builds := builds s |}
                /\ forall x, In x (users s) -> user_username x <> user_username u)
  \/ (exists b, s' = {| users := users s; builds := builds s ++ [b] |}
                /\ forall x, In x (builds s) -> build_id x <> build_id b).

(** No two Users of the store have the same username. *)
Definition unique_usernames (s : Store) : Prop :=
  NoDup (map user_username (users s)).

(** The user a lookup by [username] finds in a store. *)
Definition lookup_user (username : JsVal) (s : Store) : option User :=
  match castString username with
  | Some name => find (fun x => String.eqb (user_username x) name) (users s)
  | None => None
  end.

(** No two Builds of the store have the same identifier. *)
Definition unique_build_ids (s : Store) : Prop :=
  NoDup (map build_id (builds s)).

(** The store after a request. *)
Definition store_after (h : M Response) (s : Store) : Store :=
  db (snd (serve h s)).

(** The store after a sequence of requests, served one after the other. *)
Fixpoint serve_all (hashpw : string -> nat -> string -> string)
    (checkpw : string -> string -> bool) (rs : list Request) (s : Store) : Store :=
  match rs with
  | [] => s
  | r :: rs' => serve_all hashpw checkpw rs' (store_after (route hashpw checkpw r) s)
  end.

(** What every stored document satisfies once it has passed a [save]: no
    two Users share a username or an identifier, none has an empty username
    or an empty password hash, and no two Builds share an identifier. *)
Definition store_ok (s : Store) : Prop :=
  unique_usernames s
  /\ NoDup (map user_id (users s))
  /\ Forall (fun u => user_username u <> "" /\ user_password u <> "") (users s)
  /\ unique_build_ids s.

(** ** Sample data *)

(** A stand-in for bcrypt on which the handlers can be run: the hash keeps
    the salt and the data in the clear, the check looks for the data at
    the end of the hash.  It has the two properties of bcrypt that the
    theorems below assume, and is used at concrete inputs only. *)
Definition sample_hashpw (data : string) (rounds : nat) (salt : string) : string :=
  "$2b$" ++ salt ++ "$" ++ data.

Fixpoint ends_with (h t : string) : bool :=
  String.eqb h t ||
  match h with
  | EmptyString => false
  | String _ h' => ends_with h' t
  end.

Definition sample_checkpw (data encrypted : string) : bool :=
  ends_with encrypted ("$" ++ data).

(** Sample data for the concrete runs. *)
Definition alice_body : ReqBody :=
  {| body_username := JStr "alice"; body_password := JStr "secret1";
     body_userId := JUndefined; body_bricks := None |}.

Definition env_at (t : Z) (oid : ObjectId) : Env :=
  {| now := t; new_oid := oid; salt := "NaCl" |}.

Definition alice : User :=
  {| user_id := 1%N; user_username := "alice";
     user_password := sample_hashpw "secret1" 10 "NaCl"; user_createdAt := 1000 |}.

Definition store_with_alice : Store := {| users := [alice]; builds := [] |}.

Definition red_brick : Json :=
  JsonObject [("x", JsonNumber 0); ("y", JsonNumber 1.5); ("z", JsonNumber 2);
              ("width", JsonNumber 2); ("depth", JsonNumber 4);
              ("color", JsonNumber 16711680); ("rotation", JsonNumber 0)].

Definition blue_brick : Json :=
  JsonObject [("x", JsonNumber 2); ("y", JsonNumber 1.5); ("z", JsonNumber 2);
              ("width", JsonNumber 1); ("depth", JsonNumber 1);
              ("color", JsonNumber 255); ("rotation", JsonNumber 90)].


(** A stand-in for JavaScript's printing of a number: the decimal digits of
    its integer part, which is what JavaScript prints for the integers
    below 2^53.  It is used at such numbers only. *)
Definition sample_toString (x : float) : string :=
  match Prim2SF x with
  | S754_zero _ => "0"
  | S754_infinity sign => if sign then "-Infinity" else "Infinity"
  | S754_nan => "NaN"
  | S754_finite sign m e =>
      let magnitude := if 0 <=? e then Z.pos m * 2 ^ e else Z.pos m / 2 ^ (- e) in
      NilZero.string_of_int (Z.to_int (if sign then - magnitude else magnitude))
  end.

(** A stand-in for Mongoose's cast of [bricks], used at concrete inputs
    only.  It takes an array of objects and casts the seven fields of each
    as the schema type Number does where the stand-in knows how: a number
    is itself, a boolean is 1 or 0, a string of one to fifteen decimal
    digits is the number it writes, the empty string and [null] are
    [null]; a field that is not one of the seven is dropped.  Whatever else
    it is given it refuses.  It does not give the subdocuments the
    identifiers that Mongoose gives them. *)
Fixpoint digits_value (s : string) (acc : Z) : option Z :=
  match s with
  | EmptyString => Some acc
  | String c s' =>
      let n := Z.of_N (N_of_ascii c) in
      if (48 <=? n) && (n <=? 57) then digits_value s' (10 * acc + (n - 48))
      else None
  end.

Definition sample_castNumber (v : Json) : option Json :=
  match v with
  | JsonNull => Some JsonNull
  | JsonNumber x => if is_finite x then Some (JsonNumber x) else None
  | JsonBool b => Some (JsonNumber (if b then 1 else 0))
  | JsonString s =>
      if String.eqb s "" then Some JsonNull
      else if (String.length s <=? 15)%nat then
        option_map (fun n => JsonNumber (PrimFloat.of_uint63 (Uint63.of_Z n)))
                   (digits_value s 0)
      else None
  | JsonArray _ | JsonObject _ => None
  end.

Fixpoint sample_castFields (paths : list string) (brick : Json)
    : option (list (string * Json)) :=
  match paths with
  | [] => Some []
  | path :: paths' =>
      match json_field path brick with
      | None => sample_castFields paths' brick
      | Some v =>
          match sample_castNumber v, sample_castFields paths' brick with
          | Some n, Some fields => Some ((path, n) :: fields)
          | _, _ => None
          end
      end
  end.

Definition sample_castBrick (brick : Json) : option Json :=
  match brick with
  | JsonObject _ => option_map JsonObject (sample_castFields Brick.paths brick)
  | _ => None
  end.

Fixpoint sample_castItems (items : list Json) : option (list Json) :=
  match items with
  | [] => Some []
  | item :: items' =>
      match sample_castBrick item, sample_castItems items' with
      | Some brick, Some bricks => Some (brick :: bricks)
      | _, _ => None
      end
  end.

Definition sample_castBricks (env : Env) (raw : Json) : option Json :=
  match raw with
  | JsonArray items => option_map JsonArray (sample_castItems items)
  | _ => None
  end.

(** The identifier 1, as a request writes it. *)
Definition oid1_hex : string := "000000000000000000000001".

Definition save_body (userId : JsVal) (bricks : option Json) : ReqBody :=
  {| body_username := JUndefined; body_password := JUndefined;
     body_userId := userId; body_bricks := bricks |}.

(** A store with twelve builds of the user 1, saved at the times 1 to 12,
    and one build of the user 2. *)
Definition build_at (t : nat) (owner : ObjectId) : Build :=
  {| build_id := N.of_nat (100 + t); build_userId := owner; build_name := None;
     build_createdAt := Z.of_nat t; build_bricks := JsonArray [red_brick] |}.

Definition busy_store : Store :=
  {| users := [alice];
     builds := map (fun t => build_at t 1%N) (seq 1 12) ++ [build_at 50 2%N] |}.

(** A store with alice and one build of hers, and a few requests of every
    kind. *)
Definition store_with_build : Store :=
  {| users := [alice];
     builds := [saved_build (env_at 2000 7%N) 1%N (JsonArray [red_brick; blue_brick])] |}.

Definition bob_body : ReqBody :=
  {| body_username := JStr "bob"; body_password := JStr "hunter22";
     body_userId := JUndefined; body_bricks := None |}.

Definition sample_requests : list Request :=
  [PostSignup (env_at 3000 2%N) bob_body;
   PostSave (env_at 4000 8%N) (save_body (JStr oid1_hex) (Some (JsonArray [blue_brick])));
   PostLogin alice_body;
   GetHistory oid1_hex;
   GetLoad "000000000000000000000007"].

(** * Properties *)

(** ** Lists and strings *)

Lemma find_none_iff {A} (p : A -> bool) (l : list A) :
  find p l = None <-> forall a, In a l -> p a = false.
Proof.
  induction l as [|a l IH]; simpl.
  - split; [intros _ a [] | reflexivity].
  - destruct (p a) eqn:E.
    + split; [discriminate|]. intros H. specialize (H a (or_introl eq_refl)). congruence.
    + rewrite IH. split.
      * intros H b [<-|Hb]; auto.
      * intros H b Hb. apply H. now right.
Qed.

Lemma existsb_false_iff {A} (p : A -> bool) (l : list A) :
  existsb p l = false <-> forall a, In a l -> p a = false.
Proof.
  induction l as [|a l IH]; simpl.
  - split; [intros _ a [] | reflexivity].
  - rewrite orb_false_iff, IH. split.
    + intros [Ha H] b [<-|Hb]; auto.
    + intros H. split; [apply H; now left | intros b Hb; apply H; now right].
Qed.

Lemma find_app_last {A} (p : A -> bool) (l : list A) (a : A) :
  find p l = None -> p a = true -> find p (l ++ [a]) = Some a.
Proof.
  induction l as [|b l IH]; simpl; intros Hn Ha.
  - now rewrite Ha.
  - destruct (p b); [discriminate | auto].
Qed.

Lemma string_nonempty_length (s : string) :
  String.eqb s "" = false <-> (0 < String.length s)%nat.
Proof.
  destruct s; simpl; split; intros H; try reflexivity; try discriminate; lia.
Qed.

Lemma truthy_JStr (s : string) :
  truthy (JStr s) = true <-> (0 < String.length s)%nat.
Proof.
  simpl. rewrite negb_true_iff. apply string_nonempty_length.
Qed.

Lemma js_lt_length_JStr (s : string) (k : nat) :
  js_lt (js_length (JStr s)) (Z.of_nat k) = (String.length s <? k)%nat.
Proof.
  simpl. destruct (Nat.ltb_spec (String.length s) k);
    [apply Z.ltb_lt | apply Z.ltb_ge]; lia.
Qed.

Lemma ends_with_app (a t : string) : ends_with (a ++ t) t = true.
Proof.
  induction a as [|c a IH]; simpl.
  - destruct t; simpl; [reflexivity|]. now rewrite Ascii.eqb_refl, String.eqb_refl.
  - rewrite IH. apply orb_true_r.
Qed.

Lemma sample_checkpw_hashpw (data : string) (rounds : nat) (salt : string) :
  sample_checkpw data (sample_hashpw data rounds salt) = true.
Proof.
  unfold sample_checkpw, sample_hashpw.
  change ("$2b$" ++ salt ++ "$" ++ data) with ("$2b$" ++ (salt ++ ("$" ++ data))).
  replace ("$2b$" ++ (salt ++ ("$" ++ data))) with (("$2b$" ++ salt) ++ ("$" ++ data)).
  - apply ends_with_app.
  - simpl. reflexivity.
Qed.

Lemma sample_hashpw_nonempty (data : string) (rounds : nat) (salt : string) :
  sample_hashpw data rounds salt <> "".
Proof. unfold sample_hashpw. simpl. discriminate. Qed.

(** ** Running a handler *)

Ltac case_existsb :=
  match goal with
  | |- context [existsb ?f ?l] => destruct (existsb f l) eqn:?
  end.

Ltac unfold_monad :=
  unfold try_catch, bind, ret, throw, res_json, res_status_json,
    console_log, console_error, emit, get_store, put_store in *.

Lemma eqb_username_refl (u : string) (x : User) :
  user_username x = u -> String.eqb (user_username x) u = true.
Proof. intros ->. apply String.eqb_refl. Qed.

(** [User.findOne] on a string: one call, no write, the first user of that
    name. *)
Lemma User_findOne_JStr (u : string) (w : World) :
  User_findOne (JStr u) w =
  (Return (find (fun x => String.eqb (user_username x) u) (users (db w))),
   {| db := db w; events := events w ++ [Called UserFindOne] |}).
Proof. unfold User_findOne. unfold_monad. reflexivity. Qed.

(** [save] on a User document: one call; either it is refused and the
    store is as before, or the document is the last of [users]. *)
Lemma User_save_cases (d : UserDoc) (w : World) :
  (exists e, User_save d w =
     (Throw e, {| db := db w; events := events w ++ [Called UserSave] |}))
  \/
  (exists u, User_save d w =
     (Return u, {| db := {| users := users (db w) ++ [u]; builds := builds (db w) |};
                   events := events w ++ [Called UserSave] |})
     /\ ud_username d = Some (user_username u)
     /\ user_password u = ud_password d
     /\ forall x, In x (users (db w)) -> user_username x <> user_username u).
Proof.
  unfold User_save. unfold_monad. simpl.
  destruct (User_missing d); [|left; eexists; reflexivity].
  destruct (ud_username d) as [name|]; [|left; eexists; reflexivity].
  case_existsb; [left; eexists; reflexivity|].
  case_existsb; [left; eexists; reflexivity|].
  right. eexists. repeat split.
  intros x Hx. cbn [user_username]. apply String.eqb_neq.
  match goal with
  | E : existsb (fun u => String.eqb _ _) _ = false |- _ =>
      rewrite existsb_false_iff in E; now apply E
  end.
Qed.

Lemma User_save_ok (d : UserDoc) (w : World) (name : string) :
  ud_username d = Some name ->
  name <> "" -> ud_password d <> "" ->
  (forall x, In x (users (db w)) -> user_id x <> ud_id d) ->
  (forall x, In x (users (db w)) -> user_username x <> name) ->
  let u := {| user_id := ud_id d; user_username := name;
              user_password := ud_password d; user_createdAt := ud_createdAt d |} in
  User_save d w =
  (Return u, {| db := {| users := users (db w) ++ [u]; builds := builds (db w) |};
                events := events w ++ [Called UserSave] |}).
Proof.
  intros Hn Hne Hpw Hid Huniq u.
  unfold User_save, User_missing. unfold_monad. simpl. rewrite Hn.
  apply String.eqb_neq in Hne, Hpw. rewrite Hne, Hpw. cbn [app].
  assert (E1 : existsb (fun x => N.eqb (user_id x) (ud_id d)) (users (db w)) = false).
  { apply existsb_false_iff. intros x Hx. apply N.eqb_neq. now apply Hid. }
  assert (E2 : existsb (fun x => String.eqb (user_username x) name) (users (db w)) = false).
  { apply existsb_false_iff. intros x Hx. apply String.eqb_neq. now apply Huniq. }
  cbn [db]. rewrite E1, E2. reflexivity.
Qed.

(** [Build.findById]: one call, no write. *)
Lemma Build_findById_eq (id : JsVal) (w : World) :
  Build_findById id w =
  (match castObjectId id with
   | Some oid => Return (find (fun b => N.eqb (build_id b) oid) (builds (db w)))
   | None => Throw (CastError "_id")
   end,
   {| db := db w; events := events w ++ [Called BuildFindById] |}).
Proof.
  unfold Build_findById. unfold_monad. simpl.
  destruct (castObjectId id); reflexivity.
Qed.

(** Running a query: one call, no write. *)
Lemma exec_eq (q : Query) (w : World) :
  exec q w =
  (match castObjectId (q_userId q) with
   | Some uid =>
       let found := filter (owned_by uid) (builds (db w)) in
       let sorted := match q_sort q with
                     | Some dir => sort_builds dir found
                     | None => found
                     end in
       Return (match q_limit q with
               | Some n => firstn n sorted
               | None => sorted
               end)
   | None => Throw (CastError "userId")
   end,
   {| db := db w; events := events w ++ [Called BuildFind] |}).
Proof.
  unfold exec. unfold_monad. simpl.
  destruct (castObjectId (q_userId q)); reflexivity.
Qed.

(** ** Signup and login *)

Section Authentication.

Variable hashpw : string -> nat -> string -> string.
Variable checkpw : string -> string -> bool.

(** C6, as the handler has it.  A signup that passes validation (username
    of at least 3 characters, password of at least 6) and names the
    username of an existing User is answered 400 "Username already exists"
    whatever that password is; nothing is written. *)
Theorem signup_duplicate_username
  (env : Env) (body : ReqBody) (s : Store) (u p : string) (existing : User)
  (Hu : body_username body = JStr u) (Hp : body_password body = JStr p)
  (Hulen : (3 <= String.length u)%nat) (Hplen : (6 <= String.length p)%nat)
  (Hex : In existing (users s)) (Hname : user_username existing = u) :
  exists w,
    serve (api_signup hashpw env body) s =
    (Return {| status := 400; payload := Message false "Username already exists" |}, w)
    /\ db w = s
    /\ store_calls (events w) = [UserFindOne].
Proof.
  unfold serve, api_signup. unfold_monad. rewrite Hu, Hp.
  assert (E1 : js_not (JStr u) = false).
  { unfold js_not. apply negb_false_iff, truthy_JStr. lia. }
  assert (E2 : js_not (JStr p) = false).
  { unfold js_not. apply negb_false_iff, truthy_JStr. lia. }
  rewrite E1, E2. cbn [orb].
  change 3 with (Z.of_nat 3). change 6 with (Z.of_nat 6).
  rewrite !js_lt_length_JStr.
  destruct (Nat.ltb_spec (String.length u) 3); [lia|].
  destruct (Nat.ltb_spec (String.length p) 6); [lia|].
  rewrite User_findOne_JStr. cbn [db events].
  destruct (find (fun x => String.eqb (user_username x) u) (users s)) as [x|] eqn:F.
  - eexists. repeat split.
  - exfalso. rewrite find_none_iff in F. specialize (F existing Hex).
    rewrite (eqb_username_refl u existing Hname) in F. discriminate.
Qed.

(** C3.  A login with both fields given and non-empty fails the same way
    whether the username names no User or the password does not check
    against the stored hash of the User it names: the response is 401
    "Invalid username or password" in both cases. *)
Theorem login_failures_identical
  (s : Store) (b1 b2 : ReqBody) (u1 p1 u2 p2 : string) (user : User)
  (Hu1 : body_username b1 = JStr u1) (Hp1 : body_password b1 = JStr p1)
  (Hu2 : body_username b2 = JStr u2) (Hp2 : body_password b2 = JStr p2)
  (Hne1 : (0 < String.length u1)%nat /\ (0 < String.length p1)%nat)
  (Hne2 : (0 < String.length u2)%nat /\ (0 < String.length p2)%nat)
  (Hunknown : forall x, In x (users s) -> user_username x <> u1)
  (Hknown : find (fun x => String.eqb (user_username x) u2) (users s) = Some user)
  (Hwrong : checkpw p2 (user_password user) = false) :
  let denied := {| status := 401;
                   payload := Message false "Invalid username or password" |} in
  exists w1 w2,
    serve (api_login checkpw b1) s = (Return denied, w1)
    /\ serve (api_login checkpw b2) s = (Return denied, w2)
    /\ db w1 = s /\ db w2 = s.
Proof.
  intros denied. unfold serve, api_login. unfold_monad.
  rewrite Hu1, Hp1, Hu2, Hp2.
  destruct Hne1 as [Hn1 Hn1']. destruct Hne2 as [Hn2 Hn2'].
  assert (E : forall x, (0 < String.length x)%nat -> js_not (JStr x) = false).
  { intros x Hx. unfold js_not. now apply negb_false_iff, truthy_JStr. }
  rewrite !E by assumption. cbn [orb].
  rewrite !User_findOne_JStr. cbn [db events].
  assert (F : find (fun x => String.eqb (user_username x) u1) (users s) = None).
  { apply find_none_iff. intros x Hx. apply String.eqb_neq. now apply Hunknown. }
  rewrite F, Hknown. cbn [bcrypt_compare]. unfold_monad. rewrite Hwrong. cbn [negb].
  do 2 eexists. repeat split.
Qed.

End Authentication.

(** ** Saving and loading builds *)

(** A string that casts to an identifier is not empty, so [!userId] is
    false on it. *)
Lemma castObjectId_truthy (v : JsVal) (oid : ObjectId) :
  castObjectId v = Some oid -> js_not v = false.
Proof.
  destruct v as [| |b|n|str]; simpl; try discriminate.
  destruct str; simpl; [discriminate | reflexivity].
Qed.

(** The save handler in closed form: the ways a request can go. *)
Lemma api_save_eq (env : Env) (body : ReqBody) (s : Store) :
  serve (api_save env body) s =
  if js_not (body_userId body) then
    (Return {| status := 401; payload := Message false "User not authenticated" |},
     {| db := s; events := [] |})
  else
    match castObjectId (body_userId body), cast_bricks env (body_bricks body) with
    | Some uid, Some stored =>
        if id_in_use (new_oid env) s then
          (Return {| status := 500; payload := ErrorMessage (DuplicateKey "_id_") |},
           {| db := s; events := [Called BuildSave] |})
        else
          (Return {| status := 200; payload := SavedId true (new_oid env) |},
           {| db := {| users := users s;
                       builds := builds s ++ [saved_build env uid stored] |};
              events := [Called BuildSave; ConsoleLog "Build Saved!"] |})
    | _, _ =>
        (Return {| status := 500;
                   payload := ErrorMessage
                                (ValidationError
                                   (Build_invalid
                                      (new_Build env (body_userId body) (body_bricks body)))) |},
         {| db := s; events := [Called BuildSave] |})
    end.
Proof.
  unfold serve, api_save. unfold_monad.
  destruct (js_not (body_userId body)); [reflexivity|].
  unfold Build_save, Build_invalid, new_Build, id_in_use. unfold_monad. simpl.
  destruct (castObjectId (body_userId body)) as [uid|];
    destruct (cast_bricks env (body_bricks body)) as [stored|]; try reflexivity.
  cbn [db]. case_existsb; reflexivity.
Qed.

Lemma id_in_use_false (oid : ObjectId) (s : Store) :
  id_in_use oid s = false <-> forall b, In b (builds s) -> build_id b <> oid.
Proof.
  unfold id_in_use. rewrite existsb_false_iff. split; intros H b Hb.
  - apply N.eqb_neq. now apply H.
  - apply N.eqb_neq. now apply H.
Qed.

(** The load handler in closed form. *)
Lemma api_load_eq (id : string) (s : Store) :
  serve (api_load id) s =
  (Return
     match castObjectId (JStr id) with
     | None => {| status := 500; payload := ErrorMessage (CastError "_id") |}
     | Some oid =>
         match find (fun b => N.eqb (build_id b) oid) (builds s) with
         | None => {| status := 404; payload := Message false "Build not found" |}
         | Some build => {| status := 200; payload := BuildDocument build |}
         end
     end,
   {| db := s; events := [Called BuildFindById] |}).
Proof.
  unfold serve, api_load. unfold_monad. rewrite Build_findById_eq. cbn [db events].
  destruct (castObjectId (JStr id)) as [oid|]; [|reflexivity].
  destruct (find _ (builds s)); reflexivity.
Qed.

(** The requests that save a build: a [userId] that is an identifier,
    [bricks] that cast (or none), and an identifier for the new document
    that no stored Build has.  Whether a User has the [userId] is not
    looked at. *)
Lemma api_save_ok (env : Env) (body : ReqBody) (s : Store) (uid : ObjectId)
    (stored : Json) :
  castObjectId (body_userId body) = Some uid ->
  cast_bricks env (body_bricks body) = Some stored ->
  (forall b, In b (builds s) -> build_id b <> new_oid env) ->
  serve (api_save env body) s =
  (Return {| status := 200; payload := SavedId true (new_oid env) |},
   {| db := {| users := users s;
               builds := builds s ++ [saved_build env uid stored] |};
      events := [Called BuildSave; ConsoleLog "Build Saved!"] |}).
Proof.
  intros Hid Hbricks Hfree. rewrite api_save_eq.
  rewrite (castObjectId_truthy _ _ Hid), Hid, Hbricks.
  apply id_in_use_false in Hfree. now rewrite Hfree.
Qed.

(** C5, as the handler and the schema have it.  The save answers 401
    exactly when [!userId] holds (the field is absent, or holds a falsy
    value); then nothing is written.  When [userId] is an identifier (a
    User of that identifier need not exist) and [bricks] casts to the
    schema's array of bricks (or the body has none) the save appends one
    Build with that [userId], the bricks as cast and the clock's time as
    [createdAt], and answers with the identifier of the new Build.  A
    [userId] that is given but is not an identifier, and [bricks] that do
    not cast, fail the schema's validation: the answer is 500, with the
    paths that failed, and nothing is written. *)
Theorem save_authentication_and_creation (env : Env) (body : ReqBody) (s : Store) :
  (exists resp w,
     serve (api_save env body) s = (Return resp, w)
     /\ (status resp = 401%nat <-> js_not (body_userId body) = true)
     /\ (body_userId body = JUndefined -> status resp = 401%nat)
     /\ (status resp = 401%nat -> db w = s))
  /\
  (forall uid stored,
     castObjectId (body_userId body) = Some uid ->
     cast_bricks env (body_bricks body) = Some stored ->
     (forall b, In b (builds s) -> build_id b <> new_oid env) ->
     exists w,
       serve (api_save env body) s =
       (Return {| status := 200; payload := SavedId true (new_oid env) |}, w)
       /\ users (db w) = users s
       /\ builds (db w) =
          (builds s ++
           [{| build_id := new_oid env; build_userId := uid; build_name := None;
               build_createdAt := now env;
               build_bricks := stored |}])%list)
  /\
  (js_not (body_userId body) = false ->
   castObjectId (body_userId body) = None ->
   serve (api_save env body) s =
   (Return {| status := 500;
              payload := ErrorMessage
                           (ValidationError
                              ("userId" ::
                               match cast_bricks env (body_bricks body) with
                               | Some _ => []
                               | None => ["bricks"]
                               end)) |},
    {| db := s; events := [Called BuildSave] |}))
  /\
  (js_not (body_userId body) = false ->
   cast_bricks env (body_bricks body) = None ->
   serve (api_save env body) s =
   (Return {| status := 500;
              payload := ErrorMessage
                           (ValidationError
                              (match castObjectId (body_userId body) with
                               | Some _ => []
                               | None => ["userId"]
                               end ++ ["bricks"])) |},
    {| db := s; events := [Called BuildSave] |})).
Proof.
  repeat split.
  - rewrite api_save_eq.
    destruct (js_not (body_userId body)) eqn:Enot.
    + do 2 eexists. split; [reflexivity|]. cbn. repeat split; auto.
    + assert (Hu : body_userId body <> JUndefined)
        by (intros E; rewrite E in Enot; discriminate).
      destruct (castObjectId (body_userId body)) as [uid|];
        destruct (cast_bricks env (body_bricks body)) as [stored|];
        try destruct (id_in_use (new_oid env) s);
        (do 2 eexists; split; [reflexivity|]; cbn; repeat split;
         try discriminate; intros E; now elim Hu).
  - intros uid stored Hid Hbricks Hfree.
    rewrite (api_save_ok env body s uid stored Hid Hbricks Hfree).
    eexists. repeat split.
  - intros Hnot Hcast. rewrite api_save_eq, Hnot, Hcast.
    unfold Build_invalid, new_Build. cbn [bd_userId bd_bricks]. rewrite Hcast.
    destruct (cast_bricks env (body_bricks body)); reflexivity.
  - intros Hnot Hcast. rewrite api_save_eq, Hnot, Hcast.
    unfold Build_invalid, new_Build. cbn [bd_userId bd_bricks]. rewrite Hcast.
    destruct (castObjectId (body_userId body)); reflexivity.
Qed.

(** C10, for a [userId] that is an identifier.  A save whose body has no
    [bricks] succeeds all the same: the Build it appends is owned by that
    [userId] and has the empty sequence of bricks, and the answer carries
    its identifier. *)
Theorem save_without_bricks
  (env : Env) (body : ReqBody) (s : Store) (uid : ObjectId)
  (Hnone : body_bricks body = None)
  (Hid : castObjectId (body_userId body) = Some uid)
  (Hfree : forall b, In b (builds s) -> build_id b <> new_oid env) :
  exists build w,
    serve (api_save env body) s =
    (Return {| status := 200; payload := SavedId true (build_id build) |}, w)
    /\ users (db w) = users s
    /\ builds (db w) = (builds s ++ [build])%list
    /\ build_userId build = uid
    /\ build_bricks build = JsonArray [].
Proof.
  exists (saved_build env uid (JsonArray [])). eexists.
  rewrite (api_save_ok env body s uid (JsonArray []) Hid); [repeat split | | exact Hfree].
  now rewrite Hnone.
Qed.

(** C9, for a path that is an identifier.  The load answers 404 exactly
    when no stored Build has the identifier; otherwise it answers 200 with
    the stored Build of that identifier, whole.  The handler has no notion
    of a caller: whose Build it is plays no part.  A path that is not an
    identifier is answered 500. *)
Theorem load_not_found_iff (s : Store) (id : string) :
  exists resp,
    serve (api_load id) s = (Return resp, {| db := s; events := [Called BuildFindById] |})
    /\ match castObjectId (JStr id) with
       | Some oid =>
           (status resp = 404%nat <->
            forall b, In b (builds s) -> build_id b <> oid)
           /\ (status resp = 404%nat \/
               exists build, In build (builds s) /\ build_id build = oid
                             /\ resp = {| status := 200; payload := BuildDocument build |})
       | None =>
           resp = {| status := 500; payload := ErrorMessage (CastError "_id") |}
       end.
Proof.
  rewrite api_load_eq. eexists. split; [reflexivity|].
  destruct (castObjectId (JStr id)) as [oid|]; [|reflexivity].
  destruct (find (fun b => N.eqb (build_id b) oid) (builds s)) as [build|] eqn:F.
  - apply find_some in F. destruct F as [Hin Heq]. apply N.eqb_eq in Heq.
    split.
    + cbn. split; [discriminate|]. intros H. exfalso. exact (H build Hin Heq).
    + right. exists build. auto.
  - split; [|left; reflexivity].
    cbn. split; [|reflexivity]. intros _ b Hb.
    rewrite find_none_iff in F. apply N.eqb_neq. now apply F.
Qed.

(** ** History *)

Lemma in_order_desc (a b : Build) :
  in_order (-1) a b = true <-> newer_or_same a b.
Proof. unfold in_order, newer_or_same. cbn. apply Z.leb_le. Qed.

Lemma insert_build_perm (dir : Z) (a : Build) (l : list Build) :
  Permutation (insert_build dir a l) (a :: l).
Proof.
  induction l as [|b l IH]; simpl.
  - apply Permutation_refl.
  - destruct (in_order dir a b).
    + apply Permutation_refl.
    + eapply perm_trans; [apply perm_skip, IH | apply perm_swap].
Qed.

Lemma sort_builds_perm (dir : Z) (l : list Build) :
  Permutation (sort_builds dir l) l.
Proof.
  induction l as [|a l IH]; simpl.
  - constructor.
  - eapply perm_trans; [apply insert_build_perm | now apply perm_skip].
Qed.

Lemma insert_build_sorted (a : Build) (l : list Build) :
  StronglySorted newer_or_same l ->
  StronglySorted newer_or_same (insert_build (-1) a l).
Proof.
  induction 1 as [|b l Hs IH Hb]; simpl.
  - repeat constructor.
  - destruct (in_order (-1) a b) eqn:E.
    + apply in_order_desc in E. constructor; [now constructor|].
      constructor; [exact E|].
      eapply Forall_impl; [|exact Hb].
      unfold newer_or_same in *. intros c Hc. lia.
    + assert (Hba : newer_or_same b a).
      { unfold in_order, newer_or_same in *. cbn in E. apply Z.leb_gt in E. lia. }
      constructor; [exact IH|].
      eapply Permutation_Forall; [apply Permutation_sym, insert_build_perm|].
      now constructor.
Qed.

Lemma sort_builds_sorted (l : list Build) :
  StronglySorted newer_or_same (sort_builds (-1) l).
Proof.
  induction l as [|a l IH]; simpl; [constructor | now apply insert_build_sorted].
Qed.

Lemma StronglySorted_app_l {A} (R : A -> A -> Prop) (l1 l2 : list A) :
  StronglySorted R (l1 ++ l2) -> StronglySorted R l1.
Proof.
  induction l1 as [|a l1 IH]; simpl; intros H; [constructor|].
  inversion H as [|? ? Hs Hf]; subst. constructor; [auto|].
  apply Forall_app in Hf. tauto.
Qed.

(** The history handler in closed form, on a path that is an identifier. *)
Lemma api_history_eq (userId : string) (uid : ObjectId) (s : Store) :
  castObjectId (JStr userId) = Some uid ->
  serve (api_history userId) s =
  (Return {| status := 200;
             payload := BuildList
                          (firstn 10 (sort_builds (-1) (filter (owned_by uid) (builds s)))) |},
   {| db := s; events := [Called BuildFind] |}).
Proof.
  intros Hid. unfold serve, api_history. unfold_monad.
  rewrite (castObjectId_truthy _ _ Hid), exec_eq.
  cbn [limit sort_createdAt Build_find q_userId q_sort q_limit db events].
  rewrite Hid. reflexivity.
Qed.

(** C4, for a path that is an identifier.  The history of [userId] is
    answered 200 with a list of Builds that has at most 10 entries, all of
    them stored Builds owned by [userId], newest first; the Builds of
    [userId] that are left out ([rest]) are no newer than any that is
    listed.  With more than 10 Builds of that owner in the store the list
    has exactly 10 entries, with none it is empty.  Nothing is written. *)
Theorem history_newest_ten
  (s : Store) (userId : string) (uid : ObjectId)
  (Hid : castObjectId (JStr userId) = Some uid) :
  let owned := filter (owned_by uid) (builds s) in
  exists docs rest w,
    serve (api_history userId) s =
    (Return {| status := 200; payload := BuildList docs |}, w)
    /\ db w = s
    /\ (List.length docs <= 10)%nat
    /\ (forall b, In b docs -> In b (builds s) /\ build_userId b = uid)
    /\ StronglySorted newer_or_same docs
    /\ Permutation (docs ++ rest)%list owned
    /\ (forall b b', In b docs -> In b' rest -> newer_or_same b b')
    /\ List.length docs = Nat.min 10 (List.length owned)
    /\ ((10 < List.length owned)%nat -> List.length docs = 10%nat)
    /\ (owned = [] -> docs = []).
Proof.
  intros owned.
  set (sorted := sort_builds (-1) owned).
  assert (Hperm : Permutation sorted owned) by apply sort_builds_perm.
  assert (Hsorted : StronglySorted newer_or_same sorted) by apply sort_builds_sorted.
  assert (Hsplit : (firstn 10 sorted ++ skipn 10 sorted)%list = sorted) by apply firstn_skipn.
  assert (Hlen : List.length (firstn 10 sorted) = Nat.min 10 (List.length owned)).
  { rewrite length_firstn. now rewrite (Permutation_length Hperm). }
  exists (firstn 10 sorted), (skipn 10 sorted). eexists.
  split; [apply (api_history_eq userId uid s Hid)|]. cbn [db].
  split; [reflexivity|].
  split; [rewrite Hlen; lia|].
  split.
  { intros b Hb.
    assert (Hin : In b owned).
    { apply (Permutation_in b Hperm). rewrite <- Hsplit. apply in_or_app. now left. }
    apply filter_In in Hin. destruct Hin as [Hin Hown].
    split; [exact Hin | now apply N.eqb_eq]. }
  split.
  { apply StronglySorted_app_l with (l2 := skipn 10 sorted). now rewrite Hsplit. }
  split; [now rewrite Hsplit|].
  split.
  { rewrite <- Hsplit in Hsorted. revert Hsorted.
    generalize (firstn 10 sorted) (skipn 10 sorted). intros l1 l2.
    induction l1 as [|a l1 IH]; simpl; intros Hs b b' Hb Hb'; [contradiction|].
    inversion Hs as [|? ? Hs' Hf]; subst.
    destruct Hb as [<-|Hb].
    - rewrite Forall_forall in Hf. apply Hf. apply in_or_app. now right.
    - now apply IH. }
  split; [exact Hlen|].
  split; [rewrite Hlen; lia|].
  intros Hnil. unfold sorted. rewrite Hnil. reflexivity.
Qed.

(** ** Writes and failures *)

Lemma User_findOne_eq (v : JsVal) (w : World) :
  User_findOne v w =
  (Return match castString v with
          | Some name => find (fun x => String.eqb (user_username x) name) (users (db w))
          | None => None
          end,
   {| db := db w; events := events w ++ [Called UserFindOne] |}).
Proof.
  unfold User_findOne. unfold_monad. simpl. destruct (castString v); reflexivity.
Qed.

Section Atomicity.

Variable hashpw : string -> nat -> string -> string.
Variable checkpw : string -> string -> bool.

Lemma api_signup_calls (env : Env) (body : ReqBody) (s : Store) :
  exists resp w,
    serve (api_signup hashpw env body) s = (Return resp, w)
    /\ (status resp <> 200%nat -> db w = s)
    /\ one_write_at_most s (db w)
    /\ (store_calls (events w) = []
        \/ store_calls (events w) = [UserFindOne]
        \/ store_calls (events w) = [UserFindOne; UserSave] /\ status resp <> 400%nat).
Proof.
  unfold serve, api_signup, one_write_at_most. unfold_monad.
  destruct (js_not (body_username body) || js_not (body_password body)).
  { do 2 eexists. split; [reflexivity|]. cbn. auto. }
  destruct (js_lt (js_length (body_username body)) 3).
  { do 2 eexists. split; [reflexivity|]. cbn. auto. }
  destruct (js_lt (js_length (body_password body)) 6).
  { do 2 eexists. split; [reflexivity|]. cbn. auto. }
  rewrite User_findOne_eq. cbn [db events].
  destruct (match castString (body_username body) with
            | Some name => find (fun x => String.eqb (user_username x) name) (users s)
            | None => None
            end).
  { do 2 eexists. split; [reflexivity|]. cbn. auto. }
  destruct (body_password body) as [| |b|n|p]; cbn [bcrypt_hash]; unfold_monad;
    try (do 2 eexists; split; [reflexivity|]; cbn; auto; fail).
  match goal with
  | |- context [User_save ?d ?w0] =>
      destruct (User_save_cases d w0) as [[e He]|[u (He & _ & _ & Hnew)]]; rewrite He
  end.
  - do 2 eexists. split; [reflexivity|]. cbn.
    split; [auto|]. split; [auto|]. right. right. split; [reflexivity | discriminate].
  - do 2 eexists. split; [reflexivity|]. cbn.
    split; [intros H; now elim H|]. split; [right; left; exists u; split; [reflexivity | exact Hnew]|].
    right. right. split; [reflexivity | discriminate].
Qed.

Lemma api_login_calls (body : ReqBody) (s : Store) :
  exists resp w,
    serve (api_login checkpw body) s = (Return resp, w)
    /\ db w = s
    /\ (store_calls (events w) = [] \/ store_calls (events w) = [UserFindOne]).
Proof.
  unfold serve, api_login. unfold_monad.
  destruct (js_not (body_username body) || js_not (body_password body)).
  { do 2 eexists. split; [reflexivity|]. cbn. auto. }
  rewrite User_findOne_eq. cbn [db events].
  destruct (match castString (body_username body) with
            | Some name => find (fun x => String.eqb (user_username x) name) (users s)
            | None => None
            end) as [user|].
  2: { do 2 eexists. split; [reflexivity|]. cbn. auto. }
  destruct (body_password body) as [| |b|n|p]; cbn [bcrypt_compare]; unfold_monad;
    try (do 2 eexists; split; [reflexivity|]; cbn; auto; fail).
  destruct (checkpw p (user_password user)); cbn [negb];
    do 2 eexists; (split; [reflexivity|]); cbn; auto.
Qed.

Lemma api_save_calls (env : Env) (body : ReqBody) (s : Store) :
  exists resp w,
    serve (api_save env body) s = (Return resp, w)
    /\ (status resp <> 200%nat -> db w = s)
    /\ one_write_at_most s (db w)
    /\ (store_calls (events w) = [] \/ store_calls (events w) = [BuildSave]).
Proof.
  rewrite api_save_eq. unfold one_write_at_most.
  destruct (js_not (body_userId body)).
  { do 2 eexists. split; [reflexivity|]. cbn. auto. }
  destruct (castObjectId (body_userId body)) as [uid|].
  2: { do 2 eexists. split; [reflexivity|]. cbn. auto. }
  destruct (cast_bricks env (body_bricks body)) as [stored|].
  2: { do 2 eexists. split; [reflexivity|]. cbn. auto. }
  destruct (id_in_use (new_oid env) s) eqn:Hfree.
  { do 2 eexists. split; [reflexivity|]. cbn. auto. }
  do 2 eexists. split; [reflexivity|]. cbn.
  split; [intros H; now elim H|]. split; [|auto].
  right. right. eexists. split; [reflexivity|].
  cbn [saved_build build_id]. now apply id_in_use_false.
Qed.

Lemma api_history_calls (userId : string) (s : Store) :
  exists resp w,
    serve (api_history userId) s = (Return resp, w)
    /\ db w = s
    /\ (store_calls (events w) = [] \/ store_calls (events w) = [BuildFind]).
Proof.
  unfold serve, api_history. unfold_monad.
  destruct (js_not (JStr userId)).
  { do 2 eexists. split; [reflexivity|]. cbn. auto. }
  rewrite exec_eq. cbn [db events].
  destruct (castObjectId _); do 2 eexists; (split; [reflexivity|]); cbn; auto.
Qed.

(** C7, as the handlers have it.  Every request is answered, never left to
    an escaped exception.  A request changes the store by at most one
    write, the append of one document, and that write is all or nothing:
    whenever the answer is not 200 the store is as it was.  A request makes
    at most two store calls, and only a signup makes two: a read
    ([User.findOne]) followed by the write ([save]); every other handler
    makes at most one. *)
Theorem no_partial_failure_state (r : Request) (s : Store) :
  exists resp w,
    serve (route hashpw checkpw r) s = (Return resp, w)
    /\ (status resp <> 200%nat -> db w = s)
    /\ one_write_at_most s (db w)
    /\ (List.length (filter is_write (store_calls (events w))) <= 1)%nat
    /\ (List.length (store_calls (events w)) <= 2)%nat
    /\ match r with
       | PostSignup _ _ =>
           store_calls (events w) = []
           \/ store_calls (events w) = [UserFindOne]
           \/ store_calls (events w) = [UserFindOne; UserSave]
       | _ => (List.length (store_calls (events w)) <= 1)%nat
       end.
Proof.
  destruct r as [env body|body|env body|userId|id]; cbn [route].
  - destruct (api_signup_calls env body s) as (resp & w & Hrun & Herr & Hone & Hcalls).
    exists resp, w. split; [exact Hrun|]. split; [exact Herr|]. split; [exact Hone|].
    destruct Hcalls as [E|[E|[E _]]]; rewrite E; cbn; repeat split; auto.
  - destruct (api_login_calls body s) as (resp & w & Hrun & Hdb & Hcalls).
    exists resp, w. split; [exact Hrun|]. split; [auto|].
    split; [left; exact Hdb|].
    destruct Hcalls as [E|E]; rewrite E; cbn; repeat split; auto.
  - destruct (api_save_calls env body s) as (resp & w & Hrun & Herr & Hone & Hcalls).
    exists resp, w. split; [exact Hrun|]. split; [exact Herr|]. split; [exact Hone|].
    destruct Hcalls as [E|E]; rewrite E; cbn; repeat split; auto.
  - destruct (api_history_calls userId s) as (resp & w & Hrun & Hdb & Hcalls).
    exists resp, w. split; [exact Hrun|]. split; [auto|].
    split; [left; exact Hdb|].
    destruct Hcalls as [E|E]; rewrite E; cbn; repeat split; auto.
  - rewrite api_load_eq. do 2 eexists. split; [reflexivity|]. cbn.
    split; [auto|]. split; [now left|]. repeat split; auto.
Qed.

End Atomicity.

(** ** Further properties of login and of the store *)

Section Login.

Variable hashpw : string -> nat -> string -> string.
Variable checkpw : string -> string -> bool.

(** A login that succeeds is for a stored User: the identifier and the
    username in the answer are that User's, the password of the request is
    a string, and it checks against the User's stored hash. *)
Theorem login_success_sound
  (s : Store) (body : ReqBody) (success : bool) (uid : ObjectId)
  (name message : string) (w : World)
  (Hok : serve (api_login checkpw body) s =
         (Return {| status := 200; payload := LoggedIn success uid name message |}, w)) :
  exists user p,
    In user (users s)
    /\ user_id user = uid /\ user_username user = name
    /\ castString (body_username body) = Some name
    /\ body_password body = JStr p
    /\ checkpw p (user_password user) = true.
Proof.
  unfold serve, api_login in Hok. unfold_monad.
  destruct (js_not (body_username body) || js_not (body_password body));
    [discriminate|].
  rewrite User_findOne_eq in Hok. cbn [db events] in Hok.
  destruct (castString (body_username body)) as [n|] eqn:Ecast; [|discriminate].
  destruct (find (fun x => String.eqb (user_username x) n) (users s)) as [user|] eqn:F;
    [|discriminate].
  apply find_some in F. destruct F as [Hin Hname]. apply String.eqb_eq in Hname.
  destruct (body_password body) as [| |b|k|p]; cbn [bcrypt_compare] in Hok;
    unfold_monad; try discriminate.
  destruct (checkpw p (user_password user)) eqn:Echeck; cbn [negb] in Hok;
    [|discriminate].
  injection Hok as _ Hid Hn _ _. subst uid name.
  exists user, p. rewrite Hname. repeat split; auto.
Qed.

(** A password that is given but is not a string is not hashed: bcrypt
    refuses it.  The login is then answered 401 when no User has the
    username and 500 when one has. *)
Theorem login_nonstring_password
  (s : Store) (body : ReqBody) (u : string)
  (Hu : body_username body = JStr u) (Hlen : (0 < String.length u)%nat)
  (Hgiven : js_not (body_password body) = false)
  (Hnostr : forall p, body_password body <> JStr p) :
  exists w,
    serve (api_login checkpw body) s =
    (Return
       match find (fun x => String.eqb (user_username x) u) (users s) with
       | None => {| status := 401; payload := Message false "Invalid username or password" |}
       | Some _ => {| status := 500; payload := Message false "Server error" |}
       end, w)
    /\ db w = s.
Proof.
  unfold serve, api_login. unfold_monad. rewrite Hu, Hgiven.
  assert (E : js_not (JStr u) = false).
  { unfold js_not. now apply negb_false_iff, truthy_JStr. }
  rewrite E. cbn [orb]. rewrite User_findOne_JStr. cbn [db events].
  destruct (find (fun x => String.eqb (user_username x) u) (users s)) as [user|].
  - destruct (body_password body) as [| |b|k|p]; cbn [bcrypt_compare]; unfold_monad;
      try (eexists; split; reflexivity).
    now elim (Hnostr p).
  - eexists; split; reflexivity.
Qed.

(** Usernames stay unique: a store in which no two Users share a username
    is still such a store after any request. *)
Theorem usernames_stay_unique
  (r : Request) (s : Store) (resp : Response) (w : World)
  (Huniq : unique_usernames s)
  (Hrun : serve (route hashpw checkpw r) s = (Return resp, w)) :
  unique_usernames (db w).
Proof.
  assert (Hone : one_write_at_most s (db w)).
  { destruct r as [env body|body|env body|userId|id]; cbn [route] in Hrun.
    - destruct (api_signup_calls hashpw env body s) as (resp' & w' & Hrun' & _ & Hone & _).
      rewrite Hrun in Hrun'. injection Hrun' as _ <-. exact Hone.
    - destruct (api_login_calls checkpw body s) as (resp' & w' & Hrun' & Hdb & _).
      rewrite Hrun in Hrun'. injection Hrun' as _ <-. now left.
    - destruct (api_save_calls env body s) as (resp' & w' & Hrun' & _ & Hone & _).
      rewrite Hrun in Hrun'. injection Hrun' as _ <-. exact Hone.
    - destruct (api_history_calls userId s) as (resp' & w' & Hrun' & Hdb & _).
      rewrite Hrun in Hrun'. injection Hrun' as _ <-. now left.
    - rewrite api_load_eq in Hrun. injection Hrun as _ <-. now left. }
  unfold unique_usernames in *.
  destruct Hone as [->|[(u & -> & Hnew)|(b & -> & _)]]; cbn [users]; auto.
  rewrite map_app. cbn [map].
  apply Permutation_NoDup with (l := user_username u :: map user_username (users s)).
  - apply Permutation_cons_append.
  - constructor; [|exact Huniq].
    intros Hin. apply in_map_iff in Hin. destruct Hin as (x & Hx & Hin).
    exact (Hnew x Hin Hx).
Qed.

End Login.

(** * The handlers in closed form, and what follows *)

Lemma find_app_some {A} (p : A -> bool) (l l' : list A) (a : A) :
  find p l = Some a -> find p (l ++ l') = Some a.
Proof.
  induction l as [|b l IH]; simpl; [discriminate|].
  destruct (p b); auto.
Qed.

Lemma find_app_none {A} (p : A -> bool) (l l' : list A) :
  find p l = None -> find p (l ++ l') = find p l'.
Proof.
  induction l as [|b l IH]; simpl; [reflexivity|].
  destruct (p b); [discriminate | auto].
Qed.

Lemma find_build_unique (l : list Build) (b : Build) :
  NoDup (map build_id l) -> In b l ->
  find (fun x => N.eqb (build_id x) (build_id b)) l = Some b.
Proof.
  induction l as [|a l IH]; simpl; intros Hnd Hin; [contradiction|].
  inversion Hnd as [|? ? Hnotin Hnd']; subst.
  destruct Hin as [->|Hin].
  - now rewrite N.eqb_refl.
  - destruct (N.eqb_spec (build_id a) (build_id b)) as [E|_]; [|auto].
    exfalso. apply Hnotin. rewrite E. now apply in_map.
Qed.

Section ClosedForms.

Variable hashpw : string -> nat -> string -> string.
Variable checkpw : string -> string -> bool.

(** The login handler in closed form: the five ways a request can go. *)
Lemma api_login_eq (body : ReqBody) (s : Store) :
  serve (api_login checkpw body) s =
  if js_not (body_username body) || js_not (body_password body) then
    (Return {| status := 400; payload := Message false "Username and password are required" |},
     {| db := s; events := [] |})
  else
    match lookup_user (body_username body) s with
    | None =>
        (Return {| status := 401; payload := Message false "Invalid username or password" |},
         {| db := s; events := [Called UserFindOne] |})
    | Some user =>
        match body_password body with
        | JStr p =>
            if checkpw p (user_password user) then
              (Return {| status := 200;
                         payload := LoggedIn true (user_id user) (user_username user)
                                             "Login successful" |},
               {| db := s;
                  events := [Called UserFindOne;
                             ConsoleLog ("User logged in: "
                                         ++ js_to_string (body_username body))] |})
            else
              (Return {| status := 401;
                         payload := Message false "Invalid username or password" |},
               {| db := s; events := [Called UserFindOne] |})
        | _ =>
            (Return {| status := 500; payload := Message false "Server error" |},
             {| db := s; events := [Called UserFindOne; ConsoleError BcryptError] |})
        end
    end.
Proof.
  unfold serve, api_login, lookup_user. unfold_monad.
  destruct (js_not (body_username body) || js_not (body_password body)); [reflexivity|].
  rewrite User_findOne_eq. cbn [db events].
  destruct (match castString (body_username body) with
            | Some name => find (fun x => String.eqb (user_username x) name) (users s)
            | None => None
            end) as [user|]; [|reflexivity].
  destruct (body_password body) as [| |b|n|p]; cbn [bcrypt_compare]; unfold_monad;
    try reflexivity.
  destruct (checkpw p (user_password user)); reflexivity.
Qed.

(** The signup handler in closed form. *)
Lemma api_signup_eq (env : Env) (body : ReqBody) (s : Store) :
  serve (api_signup hashpw env body) s =
  if js_not (body_username body) || js_not (body_password body) then
    (Return {| status := 400; payload := Message false "Username and password are required" |},
     {| db := s; events := [] |})
  else if js_lt (js_length (body_username body)) 3 then
    (Return {| status := 400;
               payload := Message false "Username must be at least 3 characters" |},
     {| db := s; events := [] |})
  else if js_lt (js_length (body_password body)) 6 then
    (Return {| status := 400;
               payload := Message false "Password must be at least 6 characters" |},
     {| db := s; events := [] |})
  else
    match lookup_user (body_username body) s with
    | Some _ =>
        (Return {| status := 400; payload := Message false "Username already exists" |},
         {| db := s; events := [Called UserFindOne] |})
    | None =>
        match body_password body with
        | JStr p =>
            match User_save (new_User env (body_username body) (hashpw p 10 (salt env)))
                            {| db := s; events := [Called UserFindOne] |} with
            | (Return _, w) =>
                (Return {| status := 200;
                           payload := Message true "Account created successfully" |},
                 {| db := db w;
                    events := events w ++
                              [ConsoleLog ("New user created: "
                                           ++ js_to_string (body_username body))] |})
            | (Throw e, w) =>
                (Return {| status := 500; payload := Message false "Server error" |},
                 {| db := db w; events := events w ++ [ConsoleError e] |})
            end
        | _ =>
            (Return {| status := 500; payload := Message false "Server error" |},
             {| db := s; events := [Called UserFindOne; ConsoleError BcryptError] |})
        end
    end.
Proof.
  unfold serve, api_signup, lookup_user. unfold_monad.
  destruct (js_not (body_username body) || js_not (body_password body)); [reflexivity|].
  destruct (js_lt (js_length (body_username body)) 3); [reflexivity|].
  destruct (js_lt (js_length (body_password body)) 6); [reflexivity|].
  rewrite User_findOne_eq. cbn [db events].
  destruct (match castString (body_username body) with
            | Some name => find (fun x => String.eqb (user_username x) name) (users s)
            | None => None
            end) as [user|]; [reflexivity|].
  destruct (body_password body) as [| |b|n|p]; cbn [bcrypt_hash]; unfold_monad;
    try reflexivity.
  destruct (User_save _ _) as [[u|e] w]; reflexivity.
Qed.

(** [save] on a User document, in closed form. *)
Lemma User_save_eq (d : UserDoc) (w : World) :
  User_save d w =
  let called := {| db := db w; events := events w ++ [Called UserSave] |} in
  match User_missing d, ud_username d with
  | [], Some name =>
      if existsb (fun u => N.eqb (user_id u) (ud_id d)) (users (db w))
      then (Throw (DuplicateKey "_id_"), called)
      else if existsb (fun u => String.eqb (user_username u) name) (users (db w))
      then (Throw (DuplicateKey "username_1"), called)
      else
        let u := {| user_id := ud_id d; user_username := name;
                    user_password := ud_password d;
                    user_createdAt := ud_createdAt d |} in
        (Return u, {| db := {| users := users (db w) ++ [u]; builds := builds (db w) |};
                      events := events w ++ [Called UserSave] |})
  | _, _ => (Throw (ValidationError (User_missing d)), called)
  end.
Proof.
  unfold User_save. unfold_monad. cbn.
  destruct (User_missing d); [|reflexivity].
  destruct (ud_username d) as [name|]; [|reflexivity].
  cbn [db]. case_existsb; [reflexivity|]. case_existsb; reflexivity.
Qed.

(** A document that misses no required path has a username and a
    password, neither empty. *)
Lemma User_missing_nil (d : UserDoc) :
  User_missing d = [] ->
  exists name, ud_username d = Some name /\ name <> "" /\ ud_password d <> "".
Proof.
  unfold User_missing.
  destruct (ud_username d) as [name|]; [|discriminate].
  destruct (String.eqb name "") eqn:En; [discriminate|].
  destruct (String.eqb (ud_password d) "") eqn:Ep; [discriminate|].
  intros _. exists name. repeat split; now apply String.eqb_neq.
Qed.

(** The history handler in closed form. *)
Lemma api_history_cases (userId : string) (s : Store) :
  serve (api_history userId) s =
  if js_not (JStr userId) then
    (Return {| status := 401; payload := Message false "User not authenticated" |},
     {| db := s; events := [] |})
  else
    (Return
       match castObjectId (JStr userId) with
       | None => {| status := 500; payload := ErrorMessage (CastError "userId") |}
       | Some uid =>
           {| status := 200;
              payload := BuildList
                           (firstn 10 (sort_builds (-1) (filter (owned_by uid) (builds s)))) |}
       end,
     {| db := s; events := [Called BuildFind] |}).
Proof.
  unfold serve, api_history. unfold_monad.
  destruct (js_not (JStr userId)); [reflexivity|].
  rewrite exec_eq.
  cbn [limit sort_createdAt Build_find q_userId q_sort q_limit db events].
  destruct (castObjectId (JStr userId)); reflexivity.
Qed.

End ClosedForms.

Section Effects.

Variable hashpw : string -> nat -> string -> string.
Variable checkpw : string -> string -> bool.

(** What a signup does to the store: nothing unless it answers 200, and
    then the append of the one User it describes. *)
Lemma api_signup_effect (env : Env) (body : ReqBody) (s : Store) :
  exists resp w,
    serve (api_signup hashpw env body) s = (Return resp, w)
    /\ ((status resp <> 200%nat /\ db w = s)
        \/ (resp = {| status := 200; payload := Message true "Account created successfully" |}
            /\ exists name p,
                 castString (body_username body) = Some name /\ name <> ""
                 /\ body_password body = JStr p
                 /\ hashpw p 10 (salt env) <> ""
                 /\ (forall x, In x (users s) -> user_username x <> name)
                 /\ (forall x, In x (users s) -> user_id x <> new_oid env)
                 /\ db w = {| users := users s ++
                                [{| user_id := new_oid env; user_username := name;
                                    user_password := hashpw p 10 (salt env);
                                    user_createdAt := now env |}];
                              builds := builds s |})).
Proof.
  rewrite api_signup_eq.
  destruct (js_not (body_username body) || js_not (body_password body));
    [do 2 eexists; split; [reflexivity|]; left; cbn; split; [discriminate|reflexivity]|].
  destruct (js_lt (js_length (body_username body)) 3);
    [do 2 eexists; split; [reflexivity|]; left; cbn; split; [discriminate|reflexivity]|].
  destruct (js_lt (js_length (body_password body)) 6);
    [do 2 eexists; split; [reflexivity|]; left; cbn; split; [discriminate|reflexivity]|].
  destruct (lookup_user (body_username body) s);
    [do 2 eexists; split; [reflexivity|]; left; cbn; split; [discriminate|reflexivity]|].
  destruct (body_password body) as [| |b|n|p];
    try (do 2 eexists; split; [reflexivity|]; left; cbn; split; [discriminate|reflexivity]).
  rewrite User_save_eq. cbn zeta.
  destruct (User_missing (new_User env (body_username body) (hashpw p 10 (salt env))))
    eqn:Emiss;
    [|do 2 eexists; split; [reflexivity|]; left; cbn; split; [discriminate|reflexivity]].
  destruct (User_missing_nil _ Emiss) as (name & Hname & Hne & Hh).
  rewrite Hname.
  cbn [new_User ud_username ud_password ud_id ud_createdAt db events] in *.
  destruct (existsb (fun u => N.eqb (user_id u) (new_oid env)) (users s)) eqn:Eid;
    [do 2 eexists; split; [reflexivity|]; left; cbn; split; [discriminate|reflexivity]|].
  destruct (existsb (fun u => String.eqb (user_username u) name) (users s)) eqn:Eun;
    [do 2 eexists; split; [reflexivity|]; left; cbn; split; [discriminate|reflexivity]|].
  do 2 eexists. split; [reflexivity|]. right. split; [reflexivity|].
  exists name, p. cbn [db].
  rewrite existsb_false_iff in Eid, Eun.
  repeat split; auto.
  - intros x Hx. apply String.eqb_neq. now apply Eun.
  - intros x Hx. apply N.eqb_neq. now apply Eid.
Qed.

(** A login does not write. *)
Lemma api_login_reads (body : ReqBody) (s : Store) :
  exists resp w,
    serve (api_login checkpw body) s = (Return resp, w) /\ db w = s.
Proof.
  rewrite api_login_eq.
  destruct (js_not (body_username body) || js_not (body_password body));
    [do 2 eexists; split; reflexivity|].
  destruct (lookup_user (body_username body) s) as [user|];
    [|do 2 eexists; split; reflexivity].
  destruct (body_password body) as [| |b|n|p].
  1-4: do 2 eexists; split; reflexivity.
  destruct (checkpw p (user_password user)); do 2 eexists; split; reflexivity.
Qed.



(** Login asks for both fields before anything else: it answers 400
    "Username and password are required" exactly when the username or the
    password is missing or falsy, and then without a call to the store. *)
Theorem login_requires_both_fields (body : ReqBody) (s : Store) :
  exists resp w,
    serve (api_login checkpw body) s = (Return resp, w)
    /\ (status resp = 400%nat <->
        js_not (body_username body) = true \/ js_not (body_password body) = true)
    /\ (status resp = 400%nat ->
        resp = {| status := 400;
                  payload := Message false "Username and password are required" |}
        /\ w = {| db := s; events := [] |}).
Proof.
  rewrite api_login_eq.
  destruct (js_not (body_username body) || js_not (body_password body)) eqn:E.
  - do 2 eexists. split; [reflexivity|]. cbn. apply orb_true_iff in E. tauto.
  - apply orb_false_iff in E. destruct E as [Eu Ep].
    assert (N : ~ (js_not (body_username body) = true \/ js_not (body_password body) = true))
      by (intros [H|H]; congruence).
    destruct (lookup_user (body_username body) s) as [user|].
    + destruct (body_password body) as [| |b|n|p];
        try (do 2 eexists; split; [reflexivity|]; cbn; split; [split|]; try discriminate; tauto).
      destruct (checkpw p (user_password user));
        do 2 eexists; (split; [reflexivity|]); cbn; (split; [split|]); try discriminate; tauto.
    + do 2 eexists; split; [reflexivity|]; cbn; split; [split|]; try discriminate; tauto.
Qed.

(** Login, history and load only read: whatever the request, the store
    after it is the store before it, and no [save] was called. *)
Theorem reads_leave_store (r : Request) (s : Store) :
  match r with
  | PostSignup _ _ | PostSave _ _ => True
  | PostLogin _ | GetHistory _ | GetLoad _ =>
      exists resp w,
        serve (route hashpw checkpw r) s = (Return resp, w)
        /\ db w = s
        /\ filter is_write (store_calls (events w)) = []
  end.
Proof.
  destruct r as [env body|body|env body|userId|id]; cbn [route]; auto.
  - rewrite api_login_eq.
    destruct (js_not (body_username body) || js_not (body_password body));
      [do 2 eexists; repeat split|].
    destruct (lookup_user (body_username body) s) as [user|];
      [|do 2 eexists; repeat split].
    destruct (body_password body) as [| |b|n|p].
    1-4: do 2 eexists; repeat split.
    destruct (checkpw p (user_password user)); do 2 eexists; repeat split.
  - rewrite api_history_cases.
    destruct (js_not (JStr userId)); do 2 eexists; repeat split.
  - rewrite api_load_eq. do 2 eexists. repeat split.
Qed.


(** The same length check on the username: a username given as a number
    has no [length], so it passes validation however few characters
    JavaScript prints for it.  With a valid password, and no User of that
    name yet, the signup succeeds and stores a User whose username is the
    number as JavaScript prints it (the number 7 is stored as "7").  (The
    number is one that is not falsy, so neither a zero nor NaN; the
    identifier drawn is assumed not to be in use, and neither the printed
    number nor the hash to be empty.) *)
Theorem signup_numeric_username
  (env : Env) (body : ReqBody) (s : Store) (n : float) (p : string)
  (Hu : body_username body = JNum n) (Hn : truthy (JNum n) = true)
  (Hprint : Number_toString n <> "")
  (Hp : body_password body = JStr p) (Hplen : (6 <= String.length p)%nat)
  (Hhash : hashpw p 10 (salt env) <> "")
  (Hunique : forall x, In x (users s) -> user_username x <> Number_toString n)
  (Hfresh : forall x, In x (users s) -> user_id x <> new_oid env) :
  exists w,
    serve (api_signup hashpw env body) s =
    (Return {| status := 200; payload := Message true "Account created successfully" |}, w)
    /\ db w = {| users := users s ++
                   [{| user_id := new_oid env;
                       user_username := Number_toString n;
                       user_password := hashpw p 10 (salt env);
                       user_createdAt := now env |}];
                 builds := builds s |}.
Proof.
  rewrite api_signup_eq, Hu, Hp.
  assert (En : js_not (JNum n) = false).
  { unfold js_not. now rewrite Hn. }
  assert (Ep : js_not (JStr p) = false).
  { unfold js_not. apply negb_false_iff, truthy_JStr. lia. }
  rewrite En, Ep. cbn [orb].
  change (js_lt (js_length (JNum n)) 3) with false. cbn iota.
  change 6 with (Z.of_nat 6). rewrite js_lt_length_JStr.
  destruct (Nat.ltb_spec (String.length p) 6); [lia|].
  unfold lookup_user. cbn [castString].
  assert (F : find (fun x => String.eqb (user_username x) (Number_toString n))
                   (users s) = None).
  { apply find_none_iff. intros x Hx. apply String.eqb_neq. now apply Hunique. }
  rewrite F.
  rewrite (User_save_ok _ _ (Number_toString n));
    cbn [new_User ud_username ud_password ud_id ud_createdAt castString db events];
    auto.
  eexists. split; reflexivity.
Qed.

(** A signup that answers 200 has stored exactly one User: its username is
    the username of the request, which no User had before, its password is
    the bcrypt hash (10 rounds, the salt drawn) of the request's password,
    which was a string; its identifier and creation time are the ones drawn
    for the request.  The answer carries neither the password nor the
    hash. *)
Theorem signup_success_creates
  (env : Env) (body : ReqBody) (s : Store) (resp : Response) (w : World)
  (Hrun : serve (api_signup hashpw env body) s = (Return resp, w))
  (Hok : status resp = 200%nat) :
  exists name p,
    castString (body_username body) = Some name
    /\ body_password body = JStr p
    /\ (forall x, In x (users s) -> user_username x <> name)
    /\ db w = {| users := users s ++
                   [{| user_id := new_oid env; user_username := name;
                       user_password := hashpw p 10 (salt env);
                       user_createdAt := now env |}];
                 builds := builds s |}
    /\ resp = {| status := 200; payload := Message true "Account created successfully" |}.
Proof.
  destruct (api_signup_effect env body s) as (resp' & w' & Hrun' & Heff).
  rewrite Hrun in Hrun'. injection Hrun' as <- <-.
  destruct Heff as [[Hne _]|[Hresp (name & p & Hc & _ & Hp & _ & Hu & _ & Hdb)]];
    [contradiction|].
  exists name, p. auto.
Qed.

End Effects.

(** ** Sequences of requests *)

Section Sequences.

Variable hashpw : string -> nat -> string -> string.
Variable checkpw : string -> string -> bool.

(** One request, whatever it is, leaves the store as it was or appends one
    document that passed its model's [save]. *)
Lemma route_store_after (r : Request) (s : Store) :
  store_after (route hashpw checkpw r) s = s
  \/ (exists u,
        store_after (route hashpw checkpw r) s =
        {| users := users s ++ [u]; builds := builds s |}
        /\ user_username u <> "" /\ user_password u <> ""
        /\ (forall x, In x (users s) -> user_username x <> user_username u)
        /\ (forall x, In x (users s) -> user_id x <> user_id u))
  \/ (exists b,
        store_after (route hashpw checkpw r) s =
        {| users := users s; builds := builds s ++ [b] |}
        /\ forall x, In x (builds s) -> build_id x <> build_id b).
Proof.
  unfold store_after.
  destruct r as [env body|body|env body|userId|id]; cbn [route].
  - destruct (api_signup_effect hashpw env body s) as (resp & w & Hrun & Heff).
    rewrite Hrun. cbn [snd].
    destruct Heff as [[_ Hdb]|[_ (name & p & _ & Hne & _ & Hh & Hu & Hid & Hdb)]];
      [now left|].
    right. left. eexists. split; [exact Hdb|]. cbn. auto.
  - destruct (api_login_reads checkpw body s) as (resp & w & Hrun & Hdb).
    rewrite Hrun. now left.
  - rewrite api_save_eq.
    destruct (js_not (body_userId body)); [now left|].
    destruct (castObjectId (body_userId body)) as [uid|]; [|now left].
    destruct (cast_bricks env (body_bricks body)) as [stored|]; [|now left].
    destruct (id_in_use (new_oid env) s) eqn:Hfree; [now left|].
    right. right. eexists. split; [reflexivity|].
    cbn [saved_build build_id]. now apply id_in_use_false.
  - rewrite api_history_cases. destruct (js_not (JStr userId)); now left.
  - rewrite api_load_eq. now left.
Qed.

(** A sequence of requests only appends to the two collections. *)
Lemma serve_all_extends (rs : list Request) (s : Store) :
  exists us bs,
    users (serve_all hashpw checkpw rs s) = (users s ++ us)%list
    /\ builds (serve_all hashpw checkpw rs s) = (builds s ++ bs)%list.
Proof.
  revert s. induction rs as [|r rs IH]; intros s; cbn [serve_all].
  - exists [], []. now rewrite !app_nil_r.
  - destruct (IH (store_after (route hashpw checkpw r) s)) as (us & bs & Hu & Hb).
    rewrite Hu, Hb.
    destruct (route_store_after r s) as [->|[(u & -> & _)|(b & -> & _)]]; cbn [users builds].
    + eauto.
    + exists (u :: us), bs. now rewrite <- app_assoc.
    + exists us, (b :: bs). now rewrite <- app_assoc.
Qed.

(** No request removes or changes a stored document, and none stores more
    than one: after any sequence of requests the Users and the Builds of
    the store are the ones it had, in their order, followed by the new
    ones, of which there are at most as many as there were requests. *)
Theorem store_only_grows (rs : list Request) (s : Store) :
  exists us bs,
    users (serve_all hashpw checkpw rs s) = (users s ++ us)%list
    /\ builds (serve_all hashpw checkpw rs s) = (builds s ++ bs)%list
    /\ (List.length us + List.length bs <= List.length rs)%nat.
Proof.
  revert s. induction rs as [|r rs IH]; intros s; cbn [serve_all].
  - exists [], []. rewrite !app_nil_r. cbn. auto.
  - destruct (IH (store_after (route hashpw checkpw r) s)) as (us & bs & Hu & Hb & Hlen).
    rewrite Hu, Hb.
    destruct (route_store_after r s) as [->|[(u & -> & _)|(b & -> & _)]]; cbn [users builds].
    + exists us, bs. cbn [List.length]. repeat split; lia.
    + exists (u :: us), bs. rewrite <- app_assoc. cbn [List.length app]. repeat split; lia.
    + exists us, (b :: bs). rewrite <- app_assoc. cbn [List.length app]. repeat split; lia.
Qed.

Lemma NoDup_map_snoc {A B} (f : A -> B) (l : list A) (a : A) :
  NoDup (map f l) -> (forall x, In x l -> f x <> f a) -> NoDup (map f (l ++ [a])).
Proof.
  intros Hnd Hnew. rewrite map_app. cbn [map].
  apply Permutation_NoDup with (l := f a :: map f l).
  - apply Permutation_cons_append.
  - constructor; [|exact Hnd].
    intros Hin. apply in_map_iff in Hin. destruct Hin as (x & Hx & Hin).
    exact (Hnew x Hin Hx).
Qed.

Lemma route_keeps_store_ok (r : Request) (s : Store) :
  store_ok s -> store_ok (store_after (route hashpw checkpw r) s).
Proof.
  unfold store_ok, unique_usernames, unique_build_ids.
  intros (Hn & Hi & Hf & Hb).
  destruct (route_store_after r s)
    as [->|[(u & -> & Hu & Hp & Hname & Hid)|(b & -> & Hnew)]]; cbn [users builds].
  - auto.
  - repeat split; auto using NoDup_map_snoc.
    apply Forall_app. split; [exact Hf|]. constructor; auto.
  - repeat split; auto using NoDup_map_snoc.
Qed.

(** The handlers keep the store well formed: if no two Users share a
    username or an identifier, no User has an empty username or an empty
    password hash, and no two Builds share an identifier, then the same
    holds after any sequence of requests.  The empty store is such a
    store. *)
Theorem store_stays_ok (rs : list Request) (s : Store) (Hok : store_ok s) :
  store_ok (serve_all hashpw checkpw rs s).
Proof.
  revert s Hok. induction rs as [|r rs IH]; intros s Hok; cbn [serve_all].
  - exact Hok.
  - apply IH. now apply route_keeps_store_ok.
Qed.

(** A Build that can be loaded stays loadable: once a load of a path
    answers 200 with a Build, it answers 200 with the same Build after any
    sequence of further requests. *)
Theorem load_persists
  (rs : list Request) (s : Store) (id : string) (build : Build) (w : World)
  (Hload : serve (api_load id) s =
           (Return {| status := 200; payload := BuildDocument build |}, w)) :
  fst (serve (api_load id) (serve_all hashpw checkpw rs s)) =
  Return {| status := 200; payload := BuildDocument build |}.
Proof.
  rewrite api_load_eq in Hload. rewrite api_load_eq. cbn [fst].
  destruct (castObjectId (JStr id)) as [oid|]; [|discriminate].
  destruct (find (fun b => N.eqb (build_id b) oid) (builds s)) as [b|] eqn:F;
    [|discriminate].
  injection Hload as Hb _. subst b.
  destruct (serve_all_extends rs s) as (us & bs & _ & ->).
  now rewrite (find_app_some _ _ bs _ F).
Qed.

(** A login that succeeds keeps succeeding: once a login answers 200, the
    same request is answered 200 with the same identifier and username
    after any sequence of further requests.  (No request changes a
    password or removes a User.) *)
Theorem login_persists
  (rs : list Request) (s : Store) (body : ReqBody) (success : bool) (uid : ObjectId)
  (name message : string) (w : World)
  (Hlogin : serve (api_login checkpw body) s =
            (Return {| status := 200; payload := LoggedIn success uid name message |}, w)) :
  fst (serve (api_login checkpw body) (serve_all hashpw checkpw rs s)) =
  Return {| status := 200; payload := LoggedIn success uid name message |}.
Proof.
  rewrite api_login_eq in Hlogin. rewrite api_login_eq.
  destruct (js_not (body_username body) || js_not (body_password body));
    [discriminate|].
  unfold lookup_user in *.
  destruct (castString (body_username body)) as [n|]; [|discriminate].
  destruct (find (fun x => String.eqb (user_username x) n) (users s)) as [user|] eqn:F;
    [|discriminate].
  destruct (serve_all_extends rs s) as (us & bs & -> & _).
  rewrite (find_app_some _ _ us _ F).
  destruct (body_password body) as [| |b|k|p]; try discriminate.
  destruct (checkpw p (user_password user)); [|discriminate].
  injection Hlogin as <- <- <- <- _. reflexivity.
Qed.

(** C1.  A signup with a username of at least 3 characters that no User
    has yet and a password of at least 6 characters succeeds and creates
    one User; a login with the same username and password that follows,
    at once or after any sequence of other requests (other signups among
    them), succeeds and returns the [_id] of that User and its username.
    (The identifier drawn for the new document is assumed not to be in
    use; of bcrypt it is assumed that a password checks against its own
    hash and that a hash is never the empty string.) *)
Theorem signup_then_login
  (env : Env) (body body' : ReqBody) (s : Store) (u p : string)
  (rs : list Request)
  (Hu : body_username body = JStr u) (Hp : body_password body = JStr p)
  (Hu' : body_username body' = JStr u) (Hp' : body_password body' = JStr p)
  (Hulen : (3 <= String.length u)%nat) (Hplen : (6 <= String.length p)%nat)
  (checkpw_hashpw :
     forall data rounds salt, checkpw data (hashpw data rounds salt) = true)
  (hashpw_nonempty : forall data rounds salt, hashpw data rounds salt <> "")
  (Hunique : forall x, In x (users s) -> user_username x <> u)
  (Hfresh : forall x, In x (users s) -> user_id x <> new_oid env) :
  exists created w1 w2,
    serve (api_signup hashpw env body) s =
    (Return {| status := 200; payload := Message true "Account created successfully" |}, w1)
    /\ users (db w1) = (users s ++ [created])%list
    /\ builds (db w1) = builds s
    /\ user_id created = new_oid env
    /\ user_username created = u
    /\ serve (api_login checkpw body') (serve_all hashpw checkpw rs (db w1)) =
       (Return {| status := 200;
                  payload := LoggedIn true (user_id created) u "Login successful" |}, w2)
    /\ db w2 = serve_all hashpw checkpw rs (db w1).
Proof.
  assert (E : forall x, (0 < String.length x)%nat -> js_not (JStr x) = false).
  { intros x Hx. unfold js_not. now apply negb_false_iff, truthy_JStr. }
  assert (F : find (fun x => String.eqb (user_username x) u) (users s) = None).
  { apply find_none_iff. intros x Hx. apply String.eqb_neq. now apply Hunique. }
  set (created := {| user_id := new_oid env; user_username := u;
                     user_password := hashpw p 10 (salt env);
                     user_createdAt := now env |}).
  destruct (serve_all_extends rs {| users := users s ++ [created]; builds := builds s |})
    as (us & bs & Hus & _).
  exists created. do 2 eexists.
  split.
  { rewrite api_signup_eq, Hu, Hp. rewrite !E by lia. cbn [orb].
    change 3 with (Z.of_nat 3). change 6 with (Z.of_nat 6).
    rewrite !js_lt_length_JStr.
    destruct (Nat.ltb_spec (String.length u) 3); [lia|].
    destruct (Nat.ltb_spec (String.length p) 6); [lia|].
    unfold lookup_user. cbn [castString]. rewrite F.
    rewrite (User_save_ok _ _ u);
      cbn [new_User ud_username ud_password ud_id castString db].
    - reflexivity.
    - reflexivity.
    - intros ->. simpl in Hulen. lia.
    - apply hashpw_nonempty.
    - exact Hfresh.
    - exact Hunique. }
  cbn [db users builds new_User ud_username ud_password ud_id ud_createdAt castString].
  fold created.
  split; [reflexivity|]. split; [reflexivity|].
  split; [reflexivity|]. split; [reflexivity|].
  rewrite api_login_eq, Hu', Hp'. rewrite !E by lia. cbn [orb].
  unfold lookup_user. cbn [castString]. rewrite Hus. cbn [users].
  rewrite (find_app_some _ _ us created);
    [| apply find_app_last; [exact F | apply String.eqb_refl]].
  cbn [user_password user_id user_username created]. rewrite checkpw_hashpw.
  split; reflexivity.
Qed.


End Sequences.

(** ** History, save and load together *)

Lemma filter_snoc {A} (p : A -> bool) (l : list A) (a : A) :
  filter p (l ++ [a]) = (filter p l ++ (if p a then [a] else []))%list.
Proof. rewrite filter_app. cbn. now destruct (p a). Qed.

(** Sorting newest first, a build newer than all the others comes out at
    the head. *)
Lemma sort_builds_snoc_newest (l : list Build) (b : Build) :
  (forall x, In x l -> build_createdAt x < build_createdAt b) ->
  sort_builds (-1) (l ++ [b]) = b :: sort_builds (-1) l.
Proof.
  induction l as [|a l IH]; intros Hnew; cbn [app sort_builds]; [reflexivity|].
  rewrite IH by (intros x Hx; apply Hnew; now right).
  cbn [insert_build].
  assert (E : in_order (-1) a b = false).
  { unfold in_order. cbn. apply Z.leb_gt. apply Hnew. now left. }
  now rewrite E.
Qed.

Lemma In_firstn_In {A} (n : nat) (l : list A) (a : A) :
  In a (firstn n l) -> In a l.
Proof.
  intros H. rewrite <- (firstn_skipn n l). apply in_or_app. now left.
Qed.

Ltac settle_flag :=
  let E := fresh "E" in
  intros ? E; injection E as <-; split; intros; (discriminate || reflexivity).

Ltac settle_status :=
  do 2 eexists; split; [reflexivity|];
  split; [cbn; auto 6|];
  cbn [payload status success_flag];
  split; [first [discriminate | settle_flag] |];
  split; [first [discriminate | intros; reflexivity] |];
  split; first [discriminate | intros; reflexivity].

Section Together.

Variable hashpw : string -> nat -> string -> string.
Variable checkpw : string -> string -> bool.

(** Only a save for a user changes the history of that user: after any
    other request (a signup, a login, a history, a load, or a save whose
    [userId] is not that user's identifier) the history is answered as it
    was before. *)
Theorem history_unchanged_by_others
  (r : Request) (s : Store) (userId : string) (uid : ObjectId)
  (Hid : castObjectId (JStr userId) = Some uid)
  (Hother : match r with
            | PostSave _ body => castObjectId (body_userId body) <> Some uid
            | _ => True
            end) :
  fst (serve (api_history userId) (store_after (route hashpw checkpw r) s)) =
  fst (serve (api_history userId) s).
Proof.
  rewrite !(api_history_eq userId uid _ Hid). cbn [fst].
  assert (E : filter (owned_by uid) (builds (store_after (route hashpw checkpw r) s)) =
              filter (owned_by uid) (builds s)); [|now rewrite E].
  unfold store_after.
  destruct r as [env body|body|env body|uid'|id]; cbn [route].
  - destruct (api_signup_effect hashpw env body s) as (resp & w & -> & Heff).
    cbn [snd].
    destruct Heff as [[_ ->]|[_ (name & p & _ & _ & _ & _ & _ & _ & ->)]]; reflexivity.
  - destruct (api_login_reads checkpw body s) as (resp & w & -> & Hdb).
    cbn [snd]. now rewrite Hdb.
  - rewrite api_save_eq.
    destruct (js_not (body_userId body)); [reflexivity|].
    destruct (castObjectId (body_userId body)) as [owner|]; [|reflexivity].
    destruct (cast_bricks env (body_bricks body)) as [stored|]; [|reflexivity].
    destruct (id_in_use (new_oid env) s); [reflexivity|].
    cbn [snd db builds]. rewrite filter_snoc.
    unfold owned_by at 2. cbn [saved_build build_userId].
    destruct (N.eqb_spec owner uid) as [->|_]; [now elim Hother|].
    now rewrite app_nil_r.
  - rewrite api_history_cases. now destruct (js_not (JStr uid')).
  - rewrite api_load_eq. reflexivity.
Qed.

(** A build just saved heads the history of its owner: when the save
    answers 200 and its time is later than that of every stored Build of
    the owner, the history that follows lists the new Build first and then
    the first nine of the history as it was. *)
Theorem saved_build_heads_history
  (env : Env) (body : ReqBody) (s : Store) (userId : string) (success : bool)
  (uid id : ObjectId) (w : World)
  (Hid : castObjectId (JStr userId) = Some uid)
  (Howner : castObjectId (body_userId body) = Some uid)
  (Hsave : serve (api_save env body) s =
           (Return {| status := 200; payload := SavedId success id |}, w))
  (Hnewest : forall b, In b (builds s) -> build_userId b = uid ->
                       build_createdAt b < now env) :
  exists docs,
    fst (serve (api_history userId) s) =
    Return {| status := 200; payload := BuildList docs |}
    /\ fst (serve (api_history userId) (db w)) =
       Return {| status := 200;
                 payload := BuildList
                              ({| build_id := id; build_userId := uid; build_name := None;
                                  build_createdAt := now env;
                                  build_bricks :=
                                    match cast_bricks env (body_bricks body) with
                                    | Some stored => stored
                                    | None => JsonArray []
                                    end |} :: firstn 9 docs) |}.
Proof.
  rewrite api_save_eq, (castObjectId_truthy _ _ Howner), Howner in Hsave.
  destruct (cast_bricks env (body_bricks body)) as [stored|]; [|discriminate].
  destruct (id_in_use (new_oid env) s); [discriminate|].
  injection Hsave as _ <- <-.
  rewrite !(api_history_eq userId uid _ Hid). cbn [fst db builds].
  eexists. split; [reflexivity|].
  rewrite filter_snoc. unfold owned_by at 2. cbn [saved_build build_userId].
  rewrite N.eqb_refl, sort_builds_snoc_newest.
  - change 10%nat with (S 9). rewrite firstn_cons, firstn_firstn. reflexivity.
  - intros x Hx. apply filter_In in Hx. destruct Hx as [Hx Hown].
    cbn [build_createdAt]. apply Hnewest; [exact Hx | now apply N.eqb_eq].
Qed.

(** Every Build that a history lists can be loaded by its identifier, and
    the load answers with that same Build (in a store where no two Builds
    share an identifier). *)
Theorem history_entries_load
  (s : Store) (userId path : string) (docs : list Build) (w : World) (b : Build)
  (Huniq : unique_build_ids s)
  (Hhist : serve (api_history userId) s =
           (Return {| status := 200; payload := BuildList docs |}, w))
  (Hin : In b docs)
  (Hpath : castObjectId (JStr path) = Some (build_id b)) :
  fst (serve (api_load path) s) =
  Return {| status := 200; payload := BuildDocument b |}.
Proof.
  rewrite api_history_cases in Hhist.
  destruct (js_not (JStr userId)); [discriminate|].
  destruct (castObjectId (JStr userId)) as [uid|]; [|discriminate].
  assert (Hdocs : docs = firstn 10 (sort_builds (-1) (filter (owned_by uid) (builds s))))
    by congruence.
  rewrite Hdocs in Hin. apply In_firstn_In in Hin.
  apply (Permutation_in _ (sort_builds_perm _ _)) in Hin.
  apply filter_In in Hin. destruct Hin as [Hin _].
  rewrite api_load_eq, Hpath. cbn [fst].
  now rewrite (find_build_unique _ _ Huniq Hin).
Qed.

(** The status codes of each route, and what the payload says of them:
    signup answers 200, 400 or 500; login 200, 400, 401 or 500; save and
    history 200, 401 or 500; load 200, 404 or 500.  A payload with a
    [success] field (a message, the answer of a login, the answer of a
    save) has it true exactly when the status is 200; a payload with an
    [error] field comes with the status 500, a list of Builds and a Build
    with the status 200. *)
Theorem status_codes (r : Request) (s : Store) :
  exists resp w,
    serve (route hashpw checkpw r) s = (Return resp, w)
    /\ In (status resp)
          match r with
          | PostSignup _ _ => [200; 400; 500]
          | PostLogin _ => [200; 400; 401; 500]
          | PostSave _ _ | GetHistory _ => [200; 401; 500]
          | GetLoad _ => [200; 404; 500]
          end%nat
    /\ (forall success,
          success_flag (payload resp) = Some success ->
          (success = true <-> status resp = 200%nat))
    /\ (forall e, payload resp = ErrorMessage e -> status resp = 500%nat)
    /\ (forall docs, payload resp = BuildList docs -> status resp = 200%nat)
    /\ (forall doc, payload resp = BuildDocument doc -> status resp = 200%nat).
Proof.
  destruct r as [env body|body|env body|userId|id]; cbn [route].
  - rewrite api_signup_eq.
    destruct (js_not (body_username body) || js_not (body_password body));
      [settle_status|].
    destruct (js_lt (js_length (body_username body)) 3); [settle_status|].
    destruct (js_lt (js_length (body_password body)) 6); [settle_status|].
    destruct (lookup_user (body_username body) s); [settle_status|].
    destruct (body_password body) as [| |b|n|p].
    1-4: settle_status.
    destruct (User_save _ _) as [[u|e] w0]; settle_status.
  - rewrite api_login_eq.
    destruct (js_not (body_username body) || js_not (body_password body));
      [settle_status|].
    destruct (lookup_user (body_username body) s) as [user|]; [|settle_status].
    destruct (body_password body) as [| |b|n|p].
    1-4: settle_status.
    destruct (checkpw p (user_password user)); settle_status.
  - rewrite api_save_eq.
    destruct (js_not (body_userId body)); [settle_status|].
    destruct (castObjectId (body_userId body)) as [uid|];
      destruct (cast_bricks env (body_bricks body)) as [stored|];
      try destruct (id_in_use (new_oid env) s); settle_status.
  - rewrite api_history_cases.
    destruct (js_not (JStr userId)); [settle_status|].
    destruct (castObjectId (JStr userId)) as [uid|]; settle_status.
  - rewrite api_load_eq.
    destruct (castObjectId (JStr id)) as [oid|]; [|settle_status].
    destruct (find _ (builds s)) as [b|]; settle_status.
Qed.

End Together.

(** ** Console lines *)

Ltac refute_in H :=
  repeat (destruct H as [H|H]; [discriminate|]); try contradiction; try discriminate.

Ltac settle_iff :=
  split;
  [ first [ discriminate | intros _; cbn; eauto 10 ]
  | first [ intros _; reflexivity
          | let H := fresh "H" in
            intros H; exfalso; try (destruct H as [? H]); cbn in H; refute_in H ] ].

Ltac settle_lines :=
  do 2 eexists; split; [reflexivity|]; cbn [status events app]; split; settle_iff.

Section Console.

Variable hashpw : string -> nat -> string -> string.
Variable checkpw : string -> string -> bool.

(** What signup and login write to the console: the line "New user
    created: ..." (for login "User logged in: ...") with the username of
    the request exactly when the answer is 200, and an error
    ([console.error]) exactly when the answer is 500; validation failures,
    a taken username and refused credentials are not logged. *)
Theorem console_lines (env : Env) (body : ReqBody) (s : Store) :
  (exists resp w,
     serve (api_signup hashpw env body) s = (Return resp, w)
     /\ (status resp = 200%nat <->
         In (ConsoleLog ("New user created: " ++ js_to_string (body_username body)))
            (events w))
     /\ (status resp = 500%nat <-> exists e, In (ConsoleError e) (events w)))
  /\
  (exists resp w,
     serve (api_login checkpw body) s = (Return resp, w)
     /\ (status resp = 200%nat <->
         In (ConsoleLog ("User logged in: " ++ js_to_string (body_username body)))
            (events w))
     /\ (status resp = 500%nat <-> exists e, In (ConsoleError e) (events w))).
Proof.
  split.
  - rewrite api_signup_eq.
    destruct (js_not (body_username body) || js_not (body_password body));
      [settle_lines|].
    destruct (js_lt (js_length (body_username body)) 3); [settle_lines|].
    destruct (js_lt (js_length (body_password body)) 6); [settle_lines|].
    destruct (lookup_user (body_username body) s); [settle_lines|].
    destruct (body_password body) as [| |b|n|p].
    1-4: settle_lines.
    rewrite User_save_eq. cbn zeta.
    destruct (User_missing _); [|settle_lines].
    cbn [new_User ud_username ud_password ud_id ud_createdAt db events].
    destruct (castString (body_username body)) as [name|]; [|settle_lines].
    destruct (existsb _ (users s)); [settle_lines|].
    destruct (existsb _ (users s)); settle_lines.
  - rewrite api_login_eq.
    destruct (js_not (body_username body) || js_not (body_password body));
      [settle_lines|].
    destruct (lookup_user (body_username body) s) as [user|]; [|settle_lines].
    destruct (body_password body) as [| |b|n|p].
    1-4: settle_lines.
    destruct (checkpw p (user_password user)); settle_lines.
Qed.

End Console.

(** ** A username is registered once *)

Lemma find_some_of_in {A} (p : A -> bool) (l : list A) (a : A) :
  In a l -> p a = true -> exists b, find p l = Some b.
Proof.
  induction l as [|c l IH]; simpl; intros Hin Hp; [contradiction|].
  destruct (p c) eqn:E; [eauto|].
  destruct Hin as [->|Hin]; [congruence | auto].
Qed.

Section Registration.

Variable hashpw : string -> nat -> string -> string.
Variable checkpw : string -> string -> bool.

(** The guards a signup has passed when it answers 200. *)
Lemma api_signup_ok_guards (env : Env) (body : ReqBody) (s : Store)
    (resp : Response) (w : World) :
  serve (api_signup hashpw env body) s = (Return resp, w) ->
  status resp = 200%nat ->
  js_not (body_username body) = false
  /\ js_lt (js_length (body_username body)) 3 = false.
Proof.
  rewrite api_signup_eq. intros Hrun Hok.
  destruct (js_not (body_username body) || js_not (body_password body)) eqn:E.
  { injection Hrun as <- _. discriminate. }
  destruct (js_lt (js_length (body_username body)) 3).
  { injection Hrun as <- _. discriminate. }
  apply orb_false_iff in E. tauto.
Qed.

(** Once a signup has succeeded for a username, every later signup with
    that username and a password of at least 6 characters is answered 400
    "Username already exists" and stores nothing, whatever requests came in
    between. *)
Theorem username_registered_once
  (env env' : Env) (body body' : ReqBody) (s : Store) (u p' : string)
  (resp : Response) (w : World) (rs : list Request)
  (Hu : body_username body = JStr u)
  (Hfirst : serve (api_signup hashpw env body) s = (Return resp, w))
  (Hok : status resp = 200%nat)
  (Hu' : body_username body' = JStr u) (Hp' : body_password body' = JStr p')
  (Hplen : (6 <= String.length p')%nat) :
  exists w',
    serve (api_signup hashpw env' body') (serve_all hashpw checkpw rs (db w)) =
    (Return {| status := 400; payload := Message false "Username already exists" |}, w')
    /\ db w' = serve_all hashpw checkpw rs (db w).
Proof.
  destruct (api_signup_ok_guards env body s resp w Hfirst Hok) as [Hnot Hlt].
  destruct (api_signup_effect hashpw env body s) as (resp0 & w0 & Hrun & Heff).
  rewrite Hfirst in Hrun. injection Hrun as <- <-.
  destruct Heff as [[Hne _]|[_ (name & p & Hc & _ & _ & _ & _ & _ & Hdb)]];
    [contradiction|].
  rewrite Hu in Hc, Hnot, Hlt. cbn in Hc. injection Hc as <-.
  destruct (serve_all_extends hashpw checkpw rs (db w)) as (us & bs & Husers & _).
  rewrite Hdb in Husers at 2. cbn [users] in Husers.
  rewrite api_signup_eq, Hu', Hp', Hnot, Hlt.
  assert (Ep : js_not (JStr p') = false).
  { unfold js_not. apply negb_false_iff, truthy_JStr. lia. }
  rewrite Ep. cbn [orb]. change 6 with (Z.of_nat 6). rewrite js_lt_length_JStr.
  destruct (Nat.ltb_spec (String.length p') 6); [lia|].
  unfold lookup_user. cbn [castString]. rewrite Husers.
  destruct (find_some_of_in (fun x => String.eqb (user_username x) u)
              ((users s ++ [{| user_id := new_oid env; user_username := u;
                               user_password := hashpw p 10 (salt env);
                               user_createdAt := now env |}]) ++ us)
              {| user_id := new_oid env; user_username := u;
                 user_password := hashpw p 10 (salt env);
                 user_createdAt := now env |}) as [x ->].
  - apply in_or_app. left. apply in_or_app. right. now left.
  - apply String.eqb_refl.
  - eexists. split; reflexivity.
Qed.

End Registration.

End Service.

(** ** The stand-ins *)






(** ** The handlers at concrete requests *)

(** On the empty store: a valid signup, the sample requests (bob's signup
    among them), then the login. *)
Lemma signup_then_login_witness :
  (3 <= String.length "alice")%nat /\ (6 <= String.length "secret1")%nat /\
  exists created w1 w2,
    serve (api_signup sample_toString sample_hashpw (env_at 1000 1%N) alice_body)
          empty_store =
    (Return {| status := 200; payload := Message true "Account created successfully" |}, w1)
    /\ users (db w1) = ([] ++ [created])%list
    /\ builds (db w1) = []
    /\ user_id created = 1%N
    /\ user_username created = "alice"
    /\ serve (api_login sample_toString sample_checkpw alice_body)
             (serve_all sample_toString sample_castBricks sample_hashpw sample_checkpw
                        sample_requests (db w1)) =
       (Return {| status := 200;
                  payload := LoggedIn true (user_id created) "alice" "Login successful" |}, w2)
    /\ db w2 = serve_all sample_toString sample_castBricks sample_hashpw sample_checkpw
                         sample_requests (db w1).
Proof.
  split; [cbn; lia|]. split; [cbn; lia|].
  apply (signup_then_login sample_toString sample_castBricks sample_hashpw sample_checkpw
           (env_at 1000 1%N) alice_body alice_body empty_store "alice" "secret1"
           sample_requests);
    try reflexivity; try (cbn; lia).
  - apply sample_checkpw_hashpw.
  - apply sample_hashpw_nonempty.
Defined.



(** An unknown username and a wrong password for alice. *)
Lemma login_failures_identical_witness :
  sample_checkpw "guess99" (user_password alice) = false /\
  exists w1 w2,
    serve (api_login sample_toString sample_checkpw
             {| body_username := JStr "nobody"; body_password := JStr "secret1";
                body_userId := JUndefined; body_bricks := None |}) store_with_alice =
    (Return {| status := 401; payload := Message false "Invalid username or password" |}, w1)
    /\ serve (api_login sample_toString sample_checkpw
                {| body_username := JStr "alice"; body_password := JStr "guess99";
                   body_userId := JUndefined; body_bricks := None |}) store_with_alice =
       (Return {| status := 401; payload := Message false "Invalid username or password" |}, w2)
    /\ db w1 = store_with_alice /\ db w2 = store_with_alice.
Proof.
  split; [reflexivity|].
  apply (login_failures_identical sample_toString sample_checkpw store_with_alice _ _
           "nobody" "secret1" "alice" "guess99" alice);
    try reflexivity; try (cbn; lia).
  intros x [<-|[]]. discriminate.
Defined.

(** C4, as stated, fails on a path that is not an identifier: the history
    of "alice" is not a list of builds but the 500 answer of a failed
    cast. *)
Lemma history_of_malformed_userId :
  js_not (JStr "alice") = false /\
  serve (api_history "alice") busy_store =
  (Return {| status := 500; payload := ErrorMessage (CastError "userId") |},
   {| db := busy_store; events := [Called BuildFind] |}).
Proof. split; reflexivity. Qed.

(** The history of the user 1 in the store of thirteen builds. *)
Lemma history_newest_ten_witness :
  let owned := filter (owned_by 1%N) (builds busy_store) in
  exists docs rest w,
    serve (api_history oid1_hex) busy_store =
    (Return {| status := 200; payload := BuildList docs |}, w)
    /\ db w = busy_store
    /\ (List.length docs <= 10)%nat
    /\ (forall b, In b docs -> In b (builds busy_store) /\ build_userId b = 1%N)
    /\ StronglySorted newer_or_same docs
    /\ Permutation (docs ++ rest)%list owned
    /\ (forall b b', In b docs -> In b' rest -> newer_or_same b b')
    /\ List.length docs = Nat.min 10 (List.length owned)
    /\ ((10 < List.length owned)%nat -> List.length docs = 10%nat)
    /\ (owned = [] -> docs = []).
Proof.
  apply (history_newest_ten busy_store oid1_hex 1%N). reflexivity.
Defined.

(** The same history, computed: the ten newest of the twelve builds of the
    user 1, newest first, and none of the user 2. *)
Example history_of_busy_store :
  serve (api_history oid1_hex) busy_store =
  (Return {| status := 200;
             payload := BuildList (map (fun t => build_at t 1%N)
                                       [12; 11; 10; 9; 8; 7; 6; 5; 4; 3]%nat) |},
   {| db := busy_store; events := [Called BuildFind] |}).
Proof. reflexivity. Qed.

(** C5, as stated, fails on a [userId] that is given but is not an
    identifier: no Build is created, the answer is 500.  It fails as well
    on bricks that do not cast, here an array that holds a string where a
    brick is expected. *)
Lemma save_with_malformed_userId :
  js_not (JStr "alice") = false /\
  serve (api_save sample_castBricks (env_at 2000 7%N)
           (save_body (JStr "alice") (Some (JsonArray [red_brick]))))
        store_with_alice =
  (Return {| status := 500; payload := ErrorMessage (ValidationError ["userId"]) |},
   {| db := store_with_alice; events := [Called BuildSave] |})
  /\
  serve (api_save sample_castBricks (env_at 2000 7%N)
           (save_body (JStr oid1_hex) (Some (JsonArray [JsonString "brick"]))))
        store_with_alice =
  (Return {| status := 500; payload := ErrorMessage (ValidationError ["bricks"]) |},
   {| db := store_with_alice; events := [Called BuildSave] |}).
Proof. repeat split. Qed.

(** A save for a [userId] that no User has. *)
Lemma save_authentication_and_creation_witness :
  castObjectId (JStr oid1_hex) = Some 1%N /\
  cast_bricks sample_castBricks (env_at 2000 7%N) (Some (JsonArray [red_brick])) =
  Some (JsonArray [red_brick]) /\
  exists w,
    serve (api_save sample_castBricks (env_at 2000 7%N)
             (save_body (JStr oid1_hex) (Some (JsonArray [red_brick]))))
          empty_store =
    (Return {| status := 200; payload := SavedId true 7%N |}, w)
    /\ users (db w) = []
    /\ builds (db w) =
       [{| build_id := 7%N; build_userId := 1%N; build_name := None;
           build_createdAt := 2000; build_bricks := JsonArray [red_brick] |}].
Proof.
  split; [reflexivity|]. split; [reflexivity|].
  destruct (save_authentication_and_creation sample_castBricks (env_at 2000 7%N)
              (save_body (JStr oid1_hex) (Some (JsonArray [red_brick]))) empty_store)
    as (_ & Hcreate & _).
  apply (Hcreate 1%N (JsonArray [red_brick])); [reflexivity | reflexivity | intros b []].
Defined.

(** C6, as stated, fails on a password that does not pass validation: the
    signup names alice, who exists, and is answered with the password
    message, not "Username already exists". *)
Lemma signup_duplicate_short_password :
  In alice (users store_with_alice) /\
  serve (api_signup sample_toString sample_hashpw (env_at 3000 9%N)
           {| body_username := JStr "alice"; body_password := JStr "abc";
              body_userId := JUndefined; body_bricks := None |}) store_with_alice =
  (Return {| status := 400;
             payload := Message false "Password must be at least 6 characters" |},
   {| db := store_with_alice; events := [] |}).
Proof. split; [now left | reflexivity]. Qed.

(** A second signup as alice with another valid password. *)
Lemma signup_duplicate_username_witness :
  exists w,
    serve (api_signup sample_toString sample_hashpw (env_at 3000 9%N)
             {| body_username := JStr "alice"; body_password := JStr "another-password";
                body_userId := JUndefined; body_bricks := None |}) store_with_alice =
    (Return {| status := 400; payload := Message false "Username already exists" |}, w)
    /\ db w = store_with_alice
    /\ store_calls (events w) = [UserFindOne].
Proof.
  apply (signup_duplicate_username sample_toString sample_hashpw (env_at 3000 9%N) _
           store_with_alice "alice" "another-password" alice);
    try reflexivity; try (cbn; lia). now left.
Defined.

(** C7, as stated, fails for signup: a signup that succeeds makes two
    store calls, the lookup and the save. *)
Lemma signup_makes_two_store_calls :
  exists resp w,
    serve (route sample_toString sample_castBricks sample_hashpw sample_checkpw
                 (PostSignup (env_at 1000 1%N) alice_body))
          empty_store = (Return resp, w)
    /\ status resp = 200%nat
    /\ store_calls (events w) = [UserFindOne; UserSave]
    /\ List.length (store_calls (events w)) = 2%nat.
Proof. do 2 eexists. repeat split. Qed.



(** C9, as stated, fails on a path that is not an identifier: no Build has
    it, and the answer is 500, not 404. *)
Lemma load_of_malformed_id :
  builds empty_store = [] /\
  serve (api_load "abc") empty_store =
  (Return {| status := 500; payload := ErrorMessage (CastError "_id") |},
   {| db := empty_store; events := [Called BuildFindById] |}).
Proof. split; reflexivity. Qed.

(** C10, as stated, fails on a [userId] that is given but is not an
    identifier, with or without bricks. *)
Lemma save_without_bricks_malformed_userId :
  body_bricks (save_body (JStr "alice") None) = None /\
  js_not (body_userId (save_body (JStr "alice") None)) = false /\
  serve (api_save sample_castBricks (env_at 2000 7%N) (save_body (JStr "alice") None))
        empty_store =
  (Return {| status := 500; payload := ErrorMessage (ValidationError ["userId"]) |},
   {| db := empty_store; events := [Called BuildSave] |}).
Proof. repeat split. Qed.

(** A save for the user 1 with no [bricks] in the body. *)
Lemma save_without_bricks_witness :
  exists build w,
    serve (api_save sample_castBricks (env_at 2000 7%N) (save_body (JStr oid1_hex) None))
          empty_store =
    (Return {| status := 200; payload := SavedId true (build_id build) |}, w)
    /\ users (db w) = []
    /\ builds (db w) = ([] ++ [build])%list
    /\ build_userId build = 1%N
    /\ build_bricks build = JsonArray [].
Proof.
  apply (save_without_bricks sample_castBricks (env_at 2000 7%N)
           (save_body (JStr oid1_hex) None) empty_store 1%N);
    [reflexivity | reflexivity | intros b []].
Defined.

(** alice logs in. *)
Lemma login_success_sound_witness :
  exists user p,
    In user (users store_with_alice)
    /\ user_id user = 1%N /\ user_username user = "alice"
    /\ castString sample_toString (body_username alice_body) = Some "alice"
    /\ body_password alice_body = JStr p
    /\ sample_checkpw p (user_password user) = true.
Proof.
  apply (login_success_sound sample_toString sample_checkpw store_with_alice alice_body
           true 1%N "alice" "Login successful"
           {| db := store_with_alice;
              events := [Called UserFindOne; ConsoleLog "User logged in: alice"] |}).
  reflexivity.
Defined.

(** A login as alice with the number 123456 for a password. *)
Lemma login_nonstring_password_witness :
  exists w,
    serve (api_login sample_toString sample_checkpw
             {| body_username := JStr "alice"; body_password := JNum 123456;
                body_userId := JUndefined; body_bricks := None |}) store_with_alice =
    (Return
       match find (fun x => String.eqb (user_username x) "alice") (users store_with_alice) with
       | None => {| status := 401; payload := Message false "Invalid username or password" |}
       | Some _ => {| status := 500; payload := Message false "Server error" |}
       end, w)
    /\ db w = store_with_alice.
Proof.
  apply (login_nonstring_password sample_toString sample_checkpw store_with_alice _ "alice");
    [reflexivity | cbn; lia | reflexivity | discriminate].
Defined.

(** The same two logins, computed: 500 for alice, 401 for a name that no
    User has. *)
Example login_number_password_known_and_unknown :
  fst (serve (api_login sample_toString sample_checkpw
                {| body_username := JStr "alice"; body_password := JNum 123456;
                   body_userId := JUndefined; body_bricks := None |}) store_with_alice) =
  Return {| status := 500; payload := Message false "Server error" |}
  /\
  fst (serve (api_login sample_toString sample_checkpw
                {| body_username := JStr "nobody"; body_password := JNum 123456;
                   body_userId := JUndefined; body_bricks := None |}) store_with_alice) =
  Return {| status := 401; payload := Message false "Invalid username or password" |}.
Proof. split; reflexivity. Qed.

(** The store after alice's signup on the empty store. *)
Lemma usernames_stay_unique_witness :
  unique_usernames store_with_alice.
Proof.
  apply (usernames_stay_unique sample_toString sample_castBricks sample_hashpw
           sample_checkpw
           (PostSignup (env_at 1000 1%N) alice_body) empty_store
           {| status := 200; payload := Message true "Account created successfully" |}
           {| db := store_with_alice;
              events := [Called UserFindOne; Called UserSave;
                         ConsoleLog "New user created: alice"] |}).
  - constructor.
  - reflexivity.
Defined.

(** ** More concrete requests *)


(** A signup with the number 7 for a username. *)
Lemma signup_numeric_username_witness :
  exists w,
    serve (api_signup sample_toString sample_hashpw (env_at 3000 2%N)
             {| body_username := JNum 7; body_password := JStr "secret1";
                body_userId := JUndefined; body_bricks := None |}) store_with_alice =
    (Return {| status := 200; payload := Message true "Account created successfully" |}, w)
    /\ db w = {| users := users store_with_alice ++
                   [{| user_id := 2%N; user_username := "7";
                       user_password := sample_hashpw "secret1" 10 "NaCl";
                       user_createdAt := 3000 |}];
                 builds := [] |}.
Proof.
  assert (Hprint : sample_toString 7 = "7") by reflexivity.
  rewrite <- Hprint.
  apply (signup_numeric_username sample_toString sample_hashpw (env_at 3000 2%N) _
           store_with_alice 7 "secret1").
  - reflexivity.
  - reflexivity.
  - rewrite Hprint. discriminate.
  - reflexivity.
  - cbn. lia.
  - discriminate.
  - rewrite Hprint. intros x [<-|[]]. discriminate.
  - intros x [<-|[]]. discriminate.
Defined.

(** What alice's signup stored. *)
Lemma signup_success_creates_witness :
  exists name p,
    castString sample_toString (body_username alice_body) = Some name
    /\ body_password alice_body = JStr p
    /\ (forall x, In x (users empty_store) -> user_username x <> name)
    /\ db {| db := store_with_alice;
             events := [Called UserFindOne; Called UserSave;
                        ConsoleLog "New user created: alice"] |} =
       {| users := users empty_store ++
            [{| user_id := 1%N; user_username := name;
                user_password := sample_hashpw p 10 "NaCl";
                user_createdAt := 1000 |}];
          builds := builds empty_store |}
    /\ {| status := 200; payload := Message true "Account created successfully" |} =
       {| status := 200; payload := Message true "Account created successfully" |}.
Proof.
  apply (signup_success_creates sample_toString sample_hashpw (env_at 1000 1%N)
           alice_body empty_store);
    reflexivity.
Defined.

(** The store after the sample requests, from alice's store with a build. *)
Lemma store_stays_ok_witness :
  store_ok store_with_build /\
  store_ok (serve_all sample_toString sample_castBricks sample_hashpw sample_checkpw
                      sample_requests store_with_build).
Proof.
  assert (Hok : store_ok store_with_build).
  { unfold store_ok, unique_usernames, unique_build_ids. cbn.
    split; [|split; [|split]].
    - constructor; [intros [] | constructor].
    - constructor; [intros [] | constructor].
    - constructor; [split; discriminate | constructor].
    - constructor; [intros [] | constructor]. }
  split; [exact Hok|].
  apply (store_stays_ok sample_toString sample_castBricks sample_hashpw sample_checkpw
           sample_requests store_with_build Hok).
Defined.

(** The build 7 is still loaded after the sample requests. *)
Lemma load_persists_witness :
  fst (serve (api_load "000000000000000000000007")
         (serve_all sample_toString sample_castBricks sample_hashpw sample_checkpw
                    sample_requests store_with_build)) =
  Return {| status := 200;
            payload := BuildDocument
                         (saved_build (env_at 2000 7%N) 1%N
                            (JsonArray [red_brick; blue_brick])) |}.
Proof.
  apply (load_persists sample_toString sample_castBricks sample_hashpw sample_checkpw
           sample_requests store_with_build
           "000000000000000000000007" _
           {| db := store_with_build; events := [Called BuildFindById] |}).
  reflexivity.
Defined.

(** alice still logs in after the sample requests. *)
Lemma login_persists_witness :
  fst (serve (api_login sample_toString sample_checkpw alice_body)
         (serve_all sample_toString sample_castBricks sample_hashpw sample_checkpw
                    sample_requests store_with_build)) =
  Return {| status := 200; payload := LoggedIn true 1%N "alice" "Login successful" |}.
Proof.
  apply (login_persists sample_toString sample_castBricks sample_hashpw sample_checkpw
           sample_requests store_with_build
           alice_body true 1%N "alice" "Login successful"
           {| db := store_with_build;
              events := [Called UserFindOne; ConsoleLog "User logged in: alice"] |}).
  reflexivity.
Defined.

(** A save for the user 2 leaves the history of the user 1 as it was. *)
Lemma history_unchanged_by_others_witness :
  fst (serve (api_history oid1_hex)
         (store_after (route sample_toString sample_castBricks sample_hashpw sample_checkpw
                         (PostSave (env_at 4000 8%N)
                            (save_body (JStr "000000000000000000000002")
                               (Some (JsonArray [blue_brick])))))
            busy_store)) =
  fst (serve (api_history oid1_hex) busy_store).
Proof.
  apply (history_unchanged_by_others sample_toString sample_castBricks sample_hashpw
           sample_checkpw
           (PostSave (env_at 4000 8%N)
              (save_body (JStr "000000000000000000000002")
                 (Some (JsonArray [blue_brick]))))
           busy_store oid1_hex 1%N); [reflexivity | discriminate].
Defined.

(** A thirteenth build of the user 1, saved at the time 2000. *)
Lemma saved_build_heads_history_witness :
  exists docs,
    fst (serve (api_history oid1_hex) busy_store) =
    Return {| status := 200; payload := BuildList docs |}
    /\ fst (serve (api_history oid1_hex)
              {| users := users busy_store;
                 builds := builds busy_store ++
                           [saved_build (env_at 2000 7%N) 1%N (JsonArray [blue_brick])] |}) =
       Return {| status := 200;
                 payload := BuildList
                              ({| build_id := 7%N; build_userId := 1%N; build_name := None;
                                  build_createdAt := 2000;
                                  build_bricks := JsonArray [blue_brick] |}
                               :: firstn 9 docs) |}.
Proof.
  apply (saved_build_heads_history sample_castBricks (env_at 2000 7%N)
           (save_body (JStr oid1_hex) (Some (JsonArray [blue_brick]))) busy_store
           oid1_hex true 1%N 7%N
           {| db := {| users := users busy_store;
                       builds := builds busy_store ++
                                 [saved_build (env_at 2000 7%N) 1%N
                                    (JsonArray [blue_brick])] |};
              events := [Called BuildSave; ConsoleLog "Build Saved!"] |});
    try reflexivity.
  intros b Hb _. cbn in Hb.
  repeat (destruct Hb as [<-|Hb]; [cbn; lia|]). contradiction.
Defined.

(** The build that alice's history lists is the build that a load of its
    identifier answers. *)
Lemma history_entries_load_witness :
  In (saved_build (env_at 2000 7%N) 1%N (JsonArray [red_brick; blue_brick]))
     [saved_build (env_at 2000 7%N) 1%N (JsonArray [red_brick; blue_brick])]
  /\ fst (serve (api_load "000000000000000000000007") store_with_build) =
     Return {| status := 200;
               payload := BuildDocument
                            (saved_build (env_at 2000 7%N) 1%N
                               (JsonArray [red_brick; blue_brick])) |}.
Proof.
  split; [now left|].
  apply (history_entries_load store_with_build oid1_hex "000000000000000000000007"
           [saved_build (env_at 2000 7%N) 1%N (JsonArray [red_brick; blue_brick])]
           {| db := store_with_build; events := [Called BuildFind] |}).
  - unfold unique_build_ids. cbn. constructor; [intros [] | constructor].
  - reflexivity.
  - now left.
  - reflexivity.
Defined.

(** alice signs up, the sample requests follow, and alice signs up again
    with another password. *)
Lemma username_registered_once_witness :
  exists w',
    serve (api_signup sample_toString sample_hashpw (env_at 5000 9%N)
             {| body_username := JStr "alice"; body_password := JStr "another-password";
                body_userId := JUndefined; body_bricks := None |})
          (serve_all sample_toString sample_castBricks sample_hashpw sample_checkpw
                     sample_requests store_with_alice) =
    (Return {| status := 400; payload := Message false "Username already exists" |}, w')
    /\ db w' = serve_all sample_toString sample_castBricks sample_hashpw sample_checkpw
                         sample_requests store_with_alice.
Proof.
  apply (username_registered_once sample_toString sample_castBricks sample_hashpw
           sample_checkpw
           (env_at 1000 1%N) (env_at 5000 9%N) alice_body _ empty_store
           "alice" "another-password"
           {| status := 200; payload := Message true "Account created successfully" |}
           {| db := store_with_alice;
              events := [Called UserFindOne; Called UserSave;
                         ConsoleLog "New user created: alice"] |}
           sample_requests);
    try reflexivity. cbn. lia.
Defined.

(** The store the sample requests leave, computed: bob has signed up, the
    build 8 of the user 1 has been saved, and alice and her build 7 are as
    they were. *)
Example sample_requests_outcome :
  serve_all sample_toString sample_castBricks sample_hashpw sample_checkpw
            sample_requests store_with_build =
  {| users := [alice;
               {| user_id := 2%N; user_username := "bob";
                  user_password := sample_hashpw "hunter22" 10 "NaCl";
                  user_createdAt := 3000 |}];
     builds := [saved_build (env_at 2000 7%N) 1%N (JsonArray [red_brick; blue_brick]);
                saved_build (env_at 4000 8%N) 1%N (JsonArray [blue_brick])] |}.
Proof. reflexivity. Qed.
